(** * Moveris live client: a model of [live/python/moveris_client.py]

    The client streams webcam frames over a websocket and consumes the
    server's acknowledgements.  This development embeds the class
    [MoverisClient] method by method and proves the properties of its
    bounded bookkeeping ([send_times], [ack_times]), of its frame counter
    and of its two loops.

    Conventions of the embedding.
    - Python [int] is [Z]; Python [float] is the kernel's binary64 [float].
    - [json.loads] is an external collaborator: a received text arrives
      already parsed ([json]) or flagged as undecodable.
    - Every call to the outside world ([time.time()], [websocket.send],
      [websocket.recv], the camera) takes its outcome as an argument.
    - Exceptions are values of [exn] carried by [result].
    - Logger calls are left out, except where evaluating their arguments
      can raise. *)

From Stdlib Require Import ZArith String PrimFloat FloatOps SpecFloat.
From stdpp Require Import base gmap list sorting.

Local Open Scope string_scope.
Local Open Scope list_scope.
Local Open Scope stdpp_scope.

#[local] Set Warnings "-clear-no-such-hyp".

(** ** Python values and exceptions *)

(** The exceptions the methods meet, all of them subclasses of
    [Exception].  [ConnectionClosed] stands for whatever the transport
    raises. *)
Inductive exn :=
| TypeError | AttributeError | KeyError | ValueError
| ZeroDivisionError | OverflowError
| TimeoutError | JSONDecodeError | ConnectionClosed.

Inductive result (A : Type) :=
| Ok (a : A)
| Raise (e : exn).
Arguments Ok {A} a.
Arguments Raise {A} e.

#[global] Instance result_ret : MRet result := λ A a, Ok a.
#[global] Instance result_bind : MBind result := λ A B k r,
  match r with
  | Ok a => k a
  | Raise e => Raise e
  end.

(** What [json.loads] builds: [None], [bool], [int], [float], [str],
    [list] and [dict] with string keys. *)
#[warnings="-register-all"]
Inductive json :=
| JNull
| JBool (b : bool)
| JInt (n : Z)
| JFloat (x : float)
| JStr (s : string)
| JList (l : list json)
| JDict (kv : list (string * json)).

Fixpoint assoc (k : string) (kv : list (string * json)) : option json :=
  match kv with
  | [] => None
  | (k', v) :: kv' => if String.eqb k k' then Some v else assoc k kv'
  end.

(** [data.get(k, default)]: only a dict has [get]. *)
Definition py_get (data : json) (k : string) (default : json) : result json :=
  match data with
  | JDict kv => Ok (from_option id default (assoc k kv))
  | _ => Raise AttributeError
  end.

(** [data[k]] for a string [k]: [KeyError] on a dict without [k],
    [TypeError] on anything that is not a dict. *)
Definition py_getitem (data : json) (k : string) : result json :=
  match data with
  | JDict kv =>
      match assoc k kv with
      | Some v => Ok v
      | None => Raise KeyError
      end
  | _ => Raise TypeError
  end.

(** [v == "literal"]. *)
Definition is_str (v : json) (s : string) : bool :=
  match v with
  | JStr s' => String.eqb s' s
  | _ => false
  end.

(** [float(n)] for an [int]: round to nearest even, [OverflowError] when
    the value does not fit a double. *)
Definition float_of_int (n : Z) : result float :=
  let x := SF2Prim (binary_normalize prec emax n 0 false) in
  if is_infinity x then Raise OverflowError else Ok x.

(** The integer a float is equal to, if any ([5.0 == 5]). *)
Definition float_integer (x : float) : option Z :=
  match Prim2SF x with
  | S754_zero _ => Some 0%Z
  | S754_finite s m e =>
      let sign (z : Z) := if s then (- z)%Z else z in
      if (0 <=? e)%Z then Some (sign (Z.pos m * 2 ^ e)%Z)
      else if (Z.pos m mod 2 ^ (- e) =? 0)%Z
           then Some (sign (Z.pos m / 2 ^ (- e))%Z)
           else None
  | _ => None
  end.

(** The [int] key of [send_times] that [v] hashes and compares equal to:
    [True == 1], [5.0 == 5]; lists and dicts are unhashable. *)
Definition py_int_key (v : json) : result (option Z) :=
  match v with
  | JNull | JStr _ => Ok None
  | JBool b => Ok (Some (if b then 1 else 0)%Z)
  | JInt n => Ok (Some n)
  | JFloat x => Ok (float_integer x)
  | JList _ | JDict _ => Raise TypeError
  end.

(** [bool(x)] for a float. *)
Definition float_truthy (x : float) : bool := negb (x =? 0)%float.

(** [n / d] with [n : int] and [d : float]. *)
Definition py_int_truediv_float (n : Z) (d : float) : result float :=
  x ← float_of_int n;
  if (d =? 0)%float then Raise ZeroDivisionError else Ok (x / d)%float.

(** [x / n] with [x : float] and [n : int]. *)
Definition py_float_truediv_int (x : float) (n : Z) : result float :=
  d ← float_of_int n;
  if (d =? 0)%float then Raise ZeroDivisionError else Ok (x / d)%float.

(** [max(0, x)] for a float [x]: the first argument wins unless [x > 0]. *)
Definition py_max_0 (x : float) : float :=
  if (0 <? x)%float then x else 0%float.

(** [bool(s)] for a [str]. *)
Definition str_truthy (s : string) : bool := negb (String.eqb s EmptyString).

(** [v * 100]. *)
Definition py_mul_100 (v : json) : result json :=
  match v with
  | JInt n => Ok (JInt (n * 100))
  | JBool b => Ok (JInt ((if b then 1 else 0) * 100))
  | JFloat x => Ok (JFloat (x * 100)%float)
  | JStr s => Ok (JStr (String.concat EmptyString (replicate 100 s)))
  | JList l => Ok (JList (mjoin (replicate 100 l)))
  | JNull | JDict _ => Raise TypeError
  end.

(** [format(v, ".2f")] and its siblings: succeeds on numbers only. *)
Definition py_format_f (v : json) : result unit :=
  match v with
  | JInt n => _ ← float_of_int n; Ok ()
  | JBool _ | JFloat _ => Ok ()
  | JStr _ => Raise ValueError
  | JNull | JList _ | JDict _ => Raise TypeError
  end.

Section Client.

(** [s % n] for a [str] [s] is printf-style formatting; its rules are left
    to the runtime.  [str_mod s] tells whether it raises. *)
Variable str_mod : string → result unit.

(** [v % 50] as far as the consumer needs it: whether it raises.  The
    value only selects a log line. *)
Definition py_mod_50 (v : json) : result unit :=
  match v with
  | JInt _ | JBool _ | JFloat _ => Ok ()
  | JStr s => str_mod s
  | JNull | JList _ | JDict _ => Raise TypeError
  end.

(** ** The client object *)

Inductive WebSocket := Ws.
Record VideoCapture := { isOpened : bool }.

(** The attributes set by [__init__]. *)
Record MoverisClient := {
  ws_url : string;
  secret_key : string;
  frame_rate : Z;
  quality : Z;
  websocket : option WebSocket;
  is_authenticated : bool;
  is_streaming : bool;
  frame_count : Z;
  server_buffer : json;
  connection_start : option float;
  send_times : gmap Z float;
  ack_times : list float;
  frame_times : list float;
  camera : option VideoCapture
}.

Definition init (url key : string) (rate q : Z) : MoverisClient :=
  {| ws_url := url; secret_key := key; frame_rate := rate; quality := q;
     websocket := None; is_authenticated := false; is_streaming := false;
     frame_count := 0; server_buffer := JInt 0; connection_start := None;
     send_times := ∅; ack_times := []; frame_times := []; camera := None |}.

Definition set_websocket (w : option WebSocket) (c : MoverisClient) :=
  {| ws_url := ws_url c; secret_key := secret_key c;
     frame_rate := frame_rate c; quality := quality c;
     websocket := w; is_authenticated := is_authenticated c;
     is_streaming := is_streaming c; frame_count := frame_count c;
     server_buffer := server_buffer c;
     connection_start := connection_start c;
     send_times := send_times c; ack_times := ack_times c;
     frame_times := frame_times c; camera := camera c |}.

Definition set_is_authenticated (b : bool) (c : MoverisClient) :=
  {| ws_url := ws_url c; secret_key := secret_key c;
     frame_rate := frame_rate c; quality := quality c;
     websocket := websocket c; is_authenticated := b;
     is_streaming := is_streaming c; frame_count := frame_count c;
     server_buffer := server_buffer c;
     connection_start := connection_start c;
     send_times := send_times c; ack_times := ack_times c;
     frame_times := frame_times c; camera := camera c |}.

Definition set_is_streaming (b : bool) (c : MoverisClient) :=
  {| ws_url := ws_url c; secret_key := secret_key c;
     frame_rate := frame_rate c; quality := quality c;
     websocket := websocket c; is_authenticated := is_authenticated c;
     is_streaming := b; frame_count := frame_count c;
     server_buffer := server_buffer c;
     connection_start := connection_start c;
     send_times := send_times c; ack_times := ack_times c;
     frame_times := frame_times c; camera := camera c |}.

Definition set_frame_count (n : Z) (c : MoverisClient) :=
  {| ws_url := ws_url c; secret_key := secret_key c;
     frame_rate := frame_rate c; quality := quality c;
     websocket := websocket c; is_authenticated := is_authenticated c;
     is_streaming := is_streaming c; frame_count := n;
     server_buffer := server_buffer c;
     connection_start := connection_start c;
     send_times := send_times c; ack_times := ack_times c;
     frame_times := frame_times c; camera := camera c |}.

Definition set_server_buffer (v : json) (c : MoverisClient) :=
  {| ws_url := ws_url c; secret_key := secret_key c;
     frame_rate := frame_rate c; quality := quality c;
     websocket := websocket c; is_authenticated := is_authenticated c;
     is_streaming := is_streaming c; frame_count := frame_count c;
     server_buffer := v;
     connection_start := connection_start c;
     send_times := send_times c; ack_times := ack_times c;
     frame_times := frame_times c; camera := camera c |}.

Definition set_connection_start (t : option float) (c : MoverisClient) :=
  {| ws_url := ws_url c; secret_key := secret_key c;
     frame_rate := frame_rate c; quality := quality c;
     websocket := websocket c; is_authenticated := is_authenticated c;
     is_streaming := is_streaming c; frame_count := frame_count c;
     server_buffer := server_buffer c;
     connection_start := t;
     send_times := send_times c; ack_times := ack_times c;
     frame_times := frame_times c; camera := camera c |}.

Definition set_send_times (m : gmap Z float) (c : MoverisClient) :=
  {| ws_url := ws_url c; secret_key := secret_key c;
     frame_rate := frame_rate c; quality := quality c;
     websocket := websocket c; is_authenticated := is_authenticated c;
     is_streaming := is_streaming c; frame_count := frame_count c;
     server_buffer := server_buffer c;
     connection_start := connection_start c;
     send_times := m; ack_times := ack_times c;
     frame_times := frame_times c; camera := camera c |}.

Definition set_ack_times (l : list float) (c : MoverisClient) :=
  {| ws_url := ws_url c; secret_key := secret_key c;
     frame_rate := frame_rate c; quality := quality c;
     websocket := websocket c; is_authenticated := is_authenticated c;
     is_streaming := is_streaming c; frame_count := frame_count c;
     server_buffer := server_buffer c;
     connection_start := connection_start c;
     send_times := send_times c; ack_times := l;
     frame_times := frame_times c; camera := camera c |}.

Definition set_camera (v : option VideoCapture) (c : MoverisClient) :=
  {| ws_url := ws_url c; secret_key := secret_key c;
     frame_rate := frame_rate c; quality := quality c;
     websocket := websocket c; is_authenticated := is_authenticated c;
     is_streaming := is_streaming c; frame_count := frame_count c;
     server_buffer := server_buffer c;
     connection_start := connection_start c;
     send_times := send_times c; ack_times := ack_times c;
     frame_times := frame_times c; camera := v |}.

(** What the client does to the outside world, in order. *)
Inductive effect :=
| WsSend (payload : json) (delivered : bool)
| WsClose
| CameraRelease
| Sleep (seconds : float).

(** ** [connect] and [open_camera] *)

(** [opened] is the outcome of [websockets.connect], [now] the clock read
    after it. *)
Definition connect (c : MoverisClient) (opened : result WebSocket)
    (now : float) : MoverisClient * bool :=
  match opened with
  | Ok w => (set_connection_start (Some now) (set_websocket (Some w) c), true)
  | Raise _ => (c, false)
  end.

(** [made] is the outcome of [cv2.VideoCapture(0)]. *)
Definition open_camera (c : MoverisClient) (made : result VideoCapture)
    : MoverisClient * bool :=
  match made with
  | Ok cam => (set_camera (Some cam) c, isOpened cam)
  | Raise _ => (c, false)
  end.

(** ** [send_frame] *)

(** [l[:-n]]. *)
Definition drop_last {A} (n : nat) (l : list A) : list A :=
  take (length l - n) l.

(** [sorted(m.keys())]. *)
Definition sorted_keys (m : gmap Z float) : list Z :=
  merge_sort Z.le (map_to_list m).*1.

(** Lines 167-170: keep the last 1000 send times. *)
Definition clean_up (m : gmap Z float) : gmap Z float :=
  if decide (1000 < size m) then
    let old_keys := drop_last 1000 (sorted_keys m) in
    foldl (λ m key, delete key m) m old_keys
  else m.

Definition frame_message (n : Z) (frame_data : string) (send_time : float)
    : json :=
  JDict [("type", JStr "frame"); ("frame_number", JInt n);
         ("frame_data", JStr frame_data); ("timestamp", JFloat send_time)].

(** [send_time] is the clock read, [tx] the outcome of [websocket.send]. *)
Definition send_frame (c : MoverisClient) (frame_data : string)
    (send_time : float) (tx : result unit)
    : MoverisClient * list effect * bool :=
  match websocket c with
  | Some _ =>
      if is_authenticated c then
        let n := (frame_count c + 1)%Z in
        let c := set_frame_count n c in
        let c := set_send_times (<[n := send_time]> (send_times c)) c in
        let c := set_send_times (clean_up (send_times c)) c in
        let msg := frame_message n frame_data send_time in
        match tx with
        | Ok _ => (c, [WsSend msg true], true)
        | Raise _ => (c, [WsSend msg false], false)
        end
      else (c, [], false)
  | None => (c, [], false)
  end.

(** ** [authenticate] *)

(** One receive: [asyncio.wait_for(websocket.recv(), 1.0)] followed by
    [json.loads].  [RecvRaise TimeoutError] is the one-second timeout. *)
Inductive recv_result :=
| RecvRaise (e : exn)
| RecvUndecodable
| RecvJson (data : json).

(** The [return] statement that ends [authenticate]. *)
Inductive auth_outcome :=
| AuthNoSocket
| AuthSuccess
| AuthRejected
| AuthTimeout
| AuthException (e : exn).

Definition auth_returns (o : auth_outcome) : bool :=
  match o with
  | AuthSuccess => true
  | _ => false
  end.

(** The body of the inner [try] (lines 88-97): [None] when it falls
    through to the next round of the loop. *)
Definition auth_message (r : recv_result) : result (option auth_outcome) :=
  match r with
  | RecvRaise e => Raise e
  | RecvUndecodable => Raise JSONDecodeError
  | RecvJson data =>
      ty ← py_getitem data "type";
      if is_str ty "auth_success" then Ok (Some AuthSuccess)
      else
        ty ← py_getitem data "type";
        if is_str ty "error" then
          _ ← py_getitem data "message"; Ok (Some AuthRejected)
        else Ok None
  end.

(** The polling loop (lines 86-103).  Each round reads the clock and, inside
    the window, receives once; [script] lists what the rounds observe.
    [None]: the script ends while the loop is still polling. *)
Fixpoint auth_wait (start_time : float) (script : list (float * recv_result))
    : option auth_outcome :=
  match script with
  | [] => None
  | (now, r) :: script' =>
      if (now - start_time <? 10)%float then
        match auth_message r with
        | Ok (Some o) => Some o
        | Ok None => auth_wait start_time script'
        | Raise TimeoutError => auth_wait start_time script'
        | Raise e => Some (AuthException e)
        end
      else Some AuthTimeout
  end.

Definition auth_request (c : MoverisClient) : json :=
  JDict [("type", JStr "auth"); ("token", JStr (secret_key c))].

Definition authenticate (c : MoverisClient) (tx : result unit)
    (start_time : float) (script : list (float * recv_result))
    : MoverisClient * list effect * option auth_outcome :=
  match websocket c with
  | None => (c, [], Some AuthNoSocket)
  | Some _ =>
      match tx with
      | Raise e => (c, [WsSend (auth_request c) false], Some (AuthException e))
      | Ok _ =>
          match auth_wait start_time script with
          | Some AuthSuccess =>
              (set_is_authenticated true c, [WsSend (auth_request c) true],
               Some AuthSuccess)
          | o => (c, [WsSend (auth_request c) true], o)
          end
      end
  end.

(** ** [handle_messages] *)

(** How one round of a loop ends. *)
Inductive flow :=
| Continue
| Break
| Fault (e : exn).

(** Lines 204-214.  The second component is the local [ack_latency],
    [None] when the [if] is not entered. *)
Definition calculate_ack_latency (c : MoverisClient) (frame_num : json)
    (receive_time : float) : result (MoverisClient * option float) :=
  key ← py_int_key frame_num;
  match key ≫= λ k, (λ sent, (k, sent)) <$> send_times c !! k with
  | Some (k, sent) =>
      let ack_latency := ((receive_time - sent) * 1000)%float in
      let acks := ack_times c ++ [ack_latency] in
      let acks := if decide (50 < length acks) then tail acks else acks in
      Ok (set_send_times (delete k (send_times c)) (set_ack_times acks c),
          Some ack_latency)
  | None => Ok (c, None)
  end.

(** Lines 200-229. *)
Definition on_frame_received (c : MoverisClient) (data : json)
    (receive_time : float) : MoverisClient * flow :=
  match py_get data "frame_number" JNull with
  | Raise e => (c, Fault e)
  | Ok frame_num =>
      match calculate_ack_latency c frame_num receive_time with
      | Raise e => (c, Fault e)
      | Ok (c, _) =>
          match py_get data "total_frames" (JInt 0) with
          | Raise e => (c, Fault e)
          | Ok total =>
              let c := set_server_buffer total c in
              match py_mod_50 frame_num with
              | Raise e => (c, Fault e)
              | Ok _ => (c, Continue)
              end
          end
      end
  end.

(** Lines 236-246: the arguments of the log line, left to right. *)
Definition log_processing_complete (data : json) : result unit :=
  res ← py_get data "result" (JDict []);
  _ ← py_get data "frames_processed" (JInt 0);
  _ ← py_get res "prediction" (JStr "N/A");
  p ← py_get res "ai_probability" (JInt 0);
  p ← py_mul_100 p;
  _ ← py_format_f p;
  conf ← py_get res "confidence" (JInt 0);
  _ ← py_format_f conf;
  secs ← py_get res "processing_time_seconds" (JInt 0);
  py_format_f secs.

(** Lines 198-258: the dispatch on [msg_type]. *)
Definition handle_message (c : MoverisClient) (data : json)
    (receive_time : float) : MoverisClient * flow :=
  match py_get data "type" JNull with
  | Raise e => (c, Fault e)
  | Ok msg_type =>
      if is_str msg_type "frame_received" then
        on_frame_received c data receive_time
      else if is_str msg_type "processing_started" then (c, Continue)
      else if is_str msg_type "processing_complete" then
        match log_processing_complete data with
        | Ok _ => (c, Continue)
        | Raise e => (c, Fault e)
        end
      else if is_str msg_type "error" then (c, Continue)
      else if is_str msg_type "disconnect" then
        (set_is_streaming false c, Break)
      else (c, Continue)
  end.

(** One round of the [while] (lines 193-264): the inner [try] absorbs
    [TimeoutError] and [JSONDecodeError], everything else leaves it. *)
Definition handle_messages_iter (c : MoverisClient) (r : recv_result)
    (receive_time : float) : MoverisClient * flow :=
  let '(c', f) :=
    match r with
    | RecvRaise e => (c, Fault e)
    | RecvUndecodable => (c, Fault JSONDecodeError)
    | RecvJson data => handle_message c data receive_time
    end in
  match f with
  | Fault TimeoutError | Fault JSONDecodeError => (c', Continue)
  | _ => (c', f)
  end.

(** ** [stream_frames] *)

(** [camera_read] is the outcome of [camera.read()] and of the encoding that
    follows: the base64 text of the frame, no frame ([ret] is false), or an
    exception. *)
Definition capture_frame (c : MoverisClient)
    (camera_read : result (option string)) : option string :=
  match camera c with
  | None => None
  | Some _ =>
      match camera_read with
      | Ok (Some base64_frame) => Some base64_frame
      | Ok None => None
      | Raise _ => None
      end
  end.

(** What one round of the producer observes: the camera, the clock and
    transport outcome inside [send_frame], and the pacing code (lines
    283-290), which either reads the clock before and after the sleep or
    raises. *)
Record tick := {
  camera_read : result (option string);
  send_time : float;
  tx : result unit;
  pacing : result (float * float)
}.

(** Lines 271-272. *)
Definition stream_frames_start (c : MoverisClient) (now : float)
    : result (float * float) :=
  frame_interval ← py_float_truediv_int 1 (frame_rate c);
  Ok (frame_interval, now).

(** The pause of the [except] clause (line 294): the double nearest to
    0.1. *)
#[warnings="-inexact-float"]
Definition backoff : float := 0.1.

(** Lines 275-294, on the client and the local [last_frame_time]. *)
Definition stream_frames_iter (c : MoverisClient)
    (frame_interval last_frame_time : float) (k : tick)
    : MoverisClient * float * list effect :=
  let '(c, sent) :=
    match capture_frame c (camera_read k) with
    | Some frame_data =>
        if str_truthy frame_data then
          let '(c, sent, _) := send_frame c frame_data (send_time k) (tx k) in
          (c, sent)
        else (c, [])
    | None => (c, [])
    end in
  match pacing k with
  | Ok (now, after) =>
      let elapsed := (now - last_frame_time)%float in
      let sleep_time := py_max_0 (frame_interval - elapsed)%float in
      let slept := if (0 <? sleep_time)%float then [Sleep sleep_time] else [] in
      (c, after, sent ++ slept)
  | Raise _ => (c, last_frame_time, sent ++ [Sleep backoff])
  end.

(** ** The two loops side by side

    [asyncio.gather] runs [stream_frames] and [handle_messages] on one
    thread; they interleave at [await].  A round of the producer touches
    the client only before its first [await], a round of the consumer only
    after its last one, so a run is a sequence of whole rounds. *)

Inductive status := Running | Returned.

Record session := {
  client : MoverisClient;
  frame_interval : float;
  last_frame_time : float;
  producer : status;
  consumer : status;
  trace : list effect
}.

Inductive event :=
| Produce (k : tick)
| Consume (r : recv_result) (receive_time : float).

Definition produce (σ : session) (k : tick) : session :=
  match producer σ with
  | Returned => σ
  | Running =>
      if is_streaming (client σ) then
        let '(c, last, effs) :=
          stream_frames_iter (client σ) (frame_interval σ)
            (last_frame_time σ) k in
        {| client := c; frame_interval := frame_interval σ;
           last_frame_time := last; producer := Running;
           consumer := consumer σ; trace := trace σ ++ effs |}
      else
        {| client := client σ; frame_interval := frame_interval σ;
           last_frame_time := last_frame_time σ; producer := Returned;
           consumer := consumer σ; trace := trace σ |}
  end.

Definition consume (σ : session) (r : recv_result) (receive_time : float)
    : session :=
  match consumer σ with
  | Returned => σ
  | Running =>
      let '(c, st) :=
        if is_streaming (client σ)
           && bool_decide (is_Some (websocket (client σ)))
        then
          let '(c, f) := handle_messages_iter (client σ) r receive_time in
          (c, match f with Continue => Running | _ => Returned end)
        else (client σ, Returned) in
      {| client := c; frame_interval := frame_interval σ;
         last_frame_time := last_frame_time σ; producer := producer σ;
         consumer := st; trace := trace σ |}
  end.

Definition step (σ : session) (ev : event) : session :=
  match ev with
  | Produce k => produce σ k
  | Consume r receive_time => consume σ r receive_time
  end.

Definition run (σ : session) (evs : list event) : session :=
  foldl step σ evs.

(** The state in which [start_streaming] reaches [asyncio.gather]. *)
Definition gather (c : MoverisClient) (interval now : float) : session :=
  {| client := set_is_streaming true c; frame_interval := interval;
     last_frame_time := now; producer := Running; consumer := Running;
     trace := [] |}.

(** ** [disconnect] *)

(** [now] is the clock read on line 348.  [camera.release()] and
    [websocket.close()] are taken to return. *)
Definition disconnect (c : MoverisClient) (now : float)
    : MoverisClient * list effect * result unit :=
  let c := set_is_streaming false c in
  let '(c, released) :=
    match camera c with
    | Some _ => (set_camera None c, [CameraRelease])
    | None => (c, [])
    end in
  let '(c, closed) :=
    match websocket c with
    | Some _ => (set_websocket None c, [WsClose])
    | None => (c, [])
    end in
  let stats :=
    match connection_start c with
    | Some t0 =>
        if float_truthy t0 then
          let duration := (now - t0)%float in
          _ ← py_int_truediv_float (frame_count c) duration; Ok ()
        else Ok ()
    | None => Ok ()
    end in
  (c, released ++ closed, stats).

(** ** [start_streaming] and [main] *)

(** What one call of [start_streaming] meets, in the order it is asked for:
    the outcome of [websockets.connect] and the clock read after it; the
    transmission, clock and rounds of [authenticate]; the outcome of
    [cv2.VideoCapture(0)]; the clock read when [stream_frames] starts; the
    rounds of the two loops under [asyncio.gather]; the clock read by a
    [disconnect] inside the [try] and by the one of [finally].

    [late] matters only when [stream_frames] raises before its loop:
    [gather] then hands the exception on and leaves the consumer task
    running; [late] holds the rounds that task still completes, before
    [start_streaming] resumes or while the transport closes. *)
Record world := {
  opened : result WebSocket;
  connected_at : float;
  auth_tx : result unit;
  auth_start : float;
  auth_script : list (float * recv_result);
  made : result VideoCapture;
  stream_start : float;
  rounds : list event;
  late : list (recv_result * float);
  closing : float;
  closed_at : float
}.

(** The consumer's loop (lines 192-264) on its own, over the rounds of
    [late]. *)
Fixpoint handle_messages_late (c : MoverisClient)
    (late : list (recv_result * float)) : MoverisClient :=
  match late with
  | [] => c
  | (r, receive_time) :: late =>
      if is_streaming c && bool_decide (is_Some (websocket c)) then
        let '(c, f) := handle_messages_iter c r receive_time in
        match f with
        | Continue => handle_messages_late c late
        | _ => c
        end
      else c
  end.

(** The [finally] clause (line 326) after the [try] has settled on [ret]:
    an exception of [disconnect] replaces the return value. *)
Definition finally_disconnect (c : MoverisClient) (effs : list effect)
    (ret : bool) (now : float) : MoverisClient * list effect * result bool :=
  let '(c, effs', r) := disconnect c now in
  (c, effs ++ effs', _ ← r; Ok ret).

(** Lines 305-306 and 310-311: [disconnect] inside the [try], then
    [return False]; if it raises, the [except] clause returns [False] as
    well. *)
Definition abandon_streaming (c : MoverisClient) (effs : list effect)
    (w : world) : MoverisClient * list effect * result bool :=
  let '(c, effs', _) := disconnect c (closing w) in
  finally_disconnect c (effs ++ effs') false (closed_at w).

(** Lines 296-326.  [None]: the scripts of [w] end while [authenticate] is
    still polling or while a loop is still running. *)
Definition start_streaming (c : MoverisClient) (w : world)
    : option (MoverisClient * list effect * result bool) :=
  let '(c, ok) := connect c (opened w) (connected_at w) in
  if ok then
    let '(c, effs, o) :=
      authenticate c (auth_tx w) (auth_start w) (auth_script w) in
    match o with
    | None => None
    | Some o =>
        if auth_returns o then
          let '(c, ok) := open_camera c (made w) in
          if ok then
            let c := set_is_streaming true c in
            match stream_frames_start c (stream_start w) with
            | Ok (interval, last) =>
                let σ := run (gather c interval last) (rounds w) in
                match producer σ, consumer σ with
                | Returned, Returned =>
                    Some (finally_disconnect (client σ) (effs ++ trace σ)
                            true (closed_at w))
                | _, _ => None
                end
            | Raise _ =>
                let c := handle_messages_late c (late w) in
                Some (finally_disconnect c effs false (closed_at w))
            end
          else Some (abandon_streaming c effs w)
        else Some (abandon_streaming c effs w)
    end
  else Some (finally_disconnect c [] false (closed_at w)).

Definition WS_URL : string := "wss://developers.moveris.com/ws/live/v1/".

(** Lines 357-384.  [SECRET_KEY] is the environment variable (empty when
    unset), [FRAME_RATE] and [QUALITY] the outcomes of [int(input(...) or
    ...)], [final] the clock read by the [disconnect] of [finally].  The
    result holds the client, if one was made. *)
Definition main (SECRET_KEY : string) (FRAME_RATE QUALITY : result Z)
    (w : world) (final : float)
    : option (option MoverisClient * list effect * result unit) :=
  if str_truthy SECRET_KEY then
    match FRAME_RATE, QUALITY with
    | Raise e, _ => Some (None, [], Raise e)
    | Ok _, Raise e => Some (None, [], Raise e)
    | Ok rate, Ok q =>
        match start_streaming (init WS_URL SECRET_KEY rate q) w with
        | None => None
        | Some (c, effs, _) =>
            let '(c, effs', r) := disconnect c final in
            Some (Some c, effs ++ effs', r)
        end
    end
  else Some (None, [], Ok ()).

(** ** Vocabulary of the statements *)

(** Projections of the outcome of a call. *)
Definition state_of {A B} (r : MoverisClient * A * B) : MoverisClient := r.1.1.
Definition effects_of {A B} (r : MoverisClient * A * B) : A := r.1.2.
Definition value_of {A B} (r : MoverisClient * A * B) : B := r.2.

(** The keys that [clean_up] deletes. *)
Definition old_keys (m : gmap Z float) : list Z :=
  if decide (1000 < size m) then drop_last 1000 (sorted_keys m) else [].

Definition bounded (σ : session) : Prop :=
  size (send_times (client σ)) ≤ 1000.

(** Whether a call to the outside world returned. *)
Definition succeeded {A} (r : result A) : bool :=
  match r with
  | Ok _ => true
  | Raise _ => false
  end.

(** The [frame_number] of a frame message handed to the transport. *)
Definition frame_number (e : effect) : option Z :=
  match e with
  | WsSend data _ =>
      match py_getitem data "frame_number" with
      | Ok (JInt n) => Some n
      | _ => None
      end
  | _ => None
  end.

(** The sequence numbers the producer assigned, in order. *)
Definition frame_numbers (tr : list effect) : list Z := omap frame_number tr.

(** [frame_num in self.send_times] evaluates to [True]. *)
Definition pending (c : MoverisClient) (frame_num : json) : bool :=
  match py_int_key frame_num with
  | Ok (Some k) => bool_decide (is_Some (send_times c !! k))
  | _ => false
  end.

(** [data.get("type")], [None] when [data] is not a dict. *)
Definition msg_type (data : json) : json :=
  match py_get data "type" JNull with
  | Ok ty => ty
  | Raise _ => JNull
  end.

(** The send time of the frame that a received message acknowledges: the
    message is tagged [frame_received] and its [frame_number] is a key of
    [send_times]. *)
Definition acknowledged (c : MoverisClient) (r : recv_result) : option float :=
  match r with
  | RecvJson data =>
      if is_str (msg_type data) "frame_received" then
        match py_get data "frame_number" JNull with
        | Ok frame_num =>
            match py_int_key frame_num with
            | Ok (Some k) => send_times c !! k
            | _ => None
            end
        | Raise _ => None
        end
      else None
  | _ => None
  end.

(** How one sample enters [ack_times]: at the tail, pushing out the head
    when the list is full. *)
Inductive appended (old : list float) : list float → Prop :=
| appended_room latency :
    length old < 50 → appended old (old ++ [latency])
| appended_full oldest rest latency :
    old = oldest :: rest → length old = 50 →
    appended old (rest ++ [latency]).

(** A field of [result] that the log line of [processing_complete] can
    format after multiplying it by [scale]: a JSON number, written with or
    without a fraction, that fits a float, or no field at all (the default
    is 0). *)
Definition is_number (scale : Z) (o : option json) : bool :=
  match o with
  | Some (JFloat _) => true
  | Some (JInt n) => succeeded (float_of_int (n * scale))
  | Some _ => false
  | None => true
  end.

(** The fields the handler computes with are as the interface describes
    them: the payload is an object; in [frame_received], [frame_number] is a
    JSON number; in [processing_complete], [result], if there is one, is an
    object whose [ai_probability], [confidence] and
    [processing_time_seconds] are JSON numbers.  Other tags have no such
    field. *)
Definition follows_schema (data : json) : bool :=
  match py_get data "type" JNull with
  | Raise _ => false
  | Ok ty =>
      if is_str ty "frame_received" then
        match py_get data "frame_number" JNull with
        | Ok (JInt _) | Ok (JFloat _) => true
        | _ => false
        end
      else if is_str ty "processing_complete" then
        match py_get data "result" (JDict []) with
        | Ok (JDict res) =>
            is_number 100 (assoc "ai_probability" res) &&
            is_number 1 (assoc "confidence" res) &&
            is_number 1 (assoc "processing_time_seconds" res)
        | _ => false
        end
      else true
  end.

(** A round of the authentication loop that decides nothing: the
    one-second timeout, or a message whose [type] is neither
    [auth_success] nor [error]. *)
Definition indefinite (r : recv_result) : Prop :=
  r = RecvRaise TimeoutError ∨
  ∃ data ty, r = RecvJson data ∧ py_getitem data "type" = Ok ty ∧
             is_str ty "auth_success" = false ∧ is_str ty "error" = false.

(** A round of the authentication loop that leaves through the catch-all
    with [e]: a transport exception other than the one-second timeout, an
    undecodable payload, or a payload without a [type]. *)
Definition abrupt (r : recv_result) (e : exn) : Prop :=
  e ≠ TimeoutError ∧
  (r = RecvRaise e ∨
   (r = RecvUndecodable ∧ e = JSONDecodeError) ∨
   ∃ data, r = RecvJson data ∧ py_getitem data "type" = Raise e).

(** A round of the authentication loop that brings [auth_success]. *)
Definition is_auth_success (r : recv_result) : bool :=
  match r with
  | RecvJson data =>
      match py_getitem data "type" with
      | Ok ty => is_str ty "auth_success"
      | Raise _ => false
      end
  | _ => false
  end.

(** The session has a length other than zero at [now], and [frame_count]
    fits a float: the statistics of [disconnect] can be computed. *)
Definition nonzero_session (c : MoverisClient) (now : float) : Prop :=
  ∀ t0, connection_start c = Some t0 →
    (now - t0 =? 0)%float = false ∧
    succeeded (float_of_int (frame_count c)) = true.

(** How often a trace releases the camera and closes the transport. *)
Definition releases (tr : list effect) : nat :=
  length (List.filter
            (λ e, match e with CameraRelease => true | _ => false end) tr).

Definition closes (tr : list effect) : nat :=
  length (List.filter
            (λ e, match e with WsClose => true | _ => false end) tr).

(** The keys of [send_times] are sequence numbers already assigned. *)
Definition keys_in_range (c : MoverisClient) : Prop :=
  (0 ≤ frame_count c)%Z ∧
  ∀ k, k ∈ dom (send_times c) → (1 ≤ k ≤ frame_count c)%Z.

(** What [connect], [authenticate], [open_camera] and [__init__] set up is
    the same in both clients. *)
Definition same_setup (c c' : MoverisClient) : Prop :=
  ws_url c' = ws_url c ∧ secret_key c' = secret_key c ∧
  frame_rate c' = frame_rate c ∧ quality c' = quality c ∧
  websocket c' = websocket c ∧ is_authenticated c' = is_authenticated c ∧
  connection_start c' = connection_start c ∧ camera c' = camera c.

(** A round of the consumer that receives a message tagged [disconnect]. *)
Definition is_disconnect (ev : event) : bool :=
  match ev with
  | Consume (RecvJson data) _ => is_str (msg_type data) "disconnect"
  | _ => false
  end.

(** An [asyncio.sleep] for a positive time, or another effect. *)
Definition sleeps_positive (e : effect) : bool :=
  match e with
  | Sleep seconds => (0 <? seconds)%float
  | _ => true
  end.

(** A frame message handed to the transport. *)
Definition is_frame (e : effect) : bool :=
  match e with
  | WsSend data _ => is_str (msg_type data) "frame"
  | _ => false
  end.

(** [start_streaming] gets as far as [cv2.VideoCapture(0)] and is handed a
    capture object, opened or not. *)
Definition camera_made (c : MoverisClient) (w : world) : bool :=
  match opened w with
  | Ok _ =>
      let c := (connect c (opened w) (connected_at w)).1 in
      match value_of (authenticate c (auth_tx w) (auth_start w)
                        (auth_script w)) with
      | Some AuthSuccess => succeeded (made w)
      | _ => false
      end
  | Raise _ => false
  end.

(** ** Sample sessions

    The properties below hold for every runtime [str_mod].  The sample
    sessions never format a string, so any choice does; they take the
    answer the runtime gives for a string without conversion specifiers. *)

Definition str_mod_literal (s : string) : result unit := Raise TypeError.

Definition created : MoverisClient :=
  init "wss://developers.moveris.com/ws/live/v1/" "secret" 10 70.

(** [connect()] succeeds at 1700000000. *)
Definition connected : MoverisClient :=
  (connect created (Ok Ws) 1700000000).1.

(** The server answers the authentication request with [auth_success]. *)
Definition authenticated : MoverisClient :=
  state_of (authenticate connected (Ok ()) 1700000000.5
              [(1700000000.75%float,
                RecvJson (JDict [("type", JStr "auth_success")]))]).

(** The webcam opens. *)
Definition ready : MoverisClient :=
  (open_camera authenticated (Ok {| isOpened := true |})).1.

(** Both loops start at 1700000001, ten frames a second. *)
Definition streaming : session :=
  gather ready (1 / 10) 1700000001.

(** A session with frames 1 to 1000 sent and none acknowledged. *)
Definition backlog : gmap Z float :=
  list_to_map ((λ n, (n, 1700000001%float)) <$> seqZ 1 1000).

Definition saturated : session :=
  gather (set_frame_count 1000 (set_send_times backlog ready))
    (1 / 10) 1700000001.

(** A session with 50 latency samples and frame 5 in flight. *)
Definition sampled : session :=
  gather (set_frame_count 5
            (set_send_times {[5%Z := 1700000001%float]}
               (set_ack_times (7%float :: replicate 49 8%float) ready)))
    (1 / 10) 1700000001.

Definition ack (n total : Z) : json :=
  JDict [("type", JStr "frame_received"); ("frame_number", JInt n);
         ("total_frames", JInt total)].

Definition server_disconnect : json :=
  JDict [("type", JStr "disconnect"); ("reason", JStr "server shutdown")].

(** A round of the producer: a captured frame, or none. *)
Definition frame (tx : result unit) : tick :=
  {| camera_read := Ok (Some "AAAA"); send_time := 1700000002; tx := tx;
     pacing := Ok (1700000002.0625%float, 1700000002.125%float) |}.

Definition no_frame : tick :=
  {| camera_read := Ok None; send_time := 1700000002; tx := Ok ();
     pacing := Ok (1700000002.0625%float, 1700000002.125%float) |}.

(** A session the server ends: one frame, its acknowledgement, then the
    server's [disconnect]. *)
Definition calm : world :=
  {| opened := Ok Ws; connected_at := 1700000000;
     auth_tx := Ok (); auth_start := 1700000000.5;
     auth_script :=
       [(1700000000.75%float,
         RecvJson (JDict [("type", JStr "auth_success")]))];
     made := Ok {| isOpened := true |};
     stream_start := 1700000001;
     rounds :=
       [Produce (frame (Ok ()));
        Consume (RecvJson (ack 1 1)) 1700000002.25;
        Consume (RecvJson server_disconnect) 1700000002.5;
        Produce (frame (Ok ()))];
     late := [];
     closing := 1700000003; closed_at := 1700000003 |}.

(** The same world with a server that rejects the token. *)
Definition rejecting : world :=
  {| opened := Ok Ws; connected_at := 1700000000;
     auth_tx := Ok (); auth_start := 1700000000.5;
     auth_script :=
       [(1700000000.75%float,
         RecvJson (JDict [("type", JStr "error");
                          ("message", JStr "bad token")]))];
     made := Ok {| isOpened := true |};
     stream_start := 1700000001;
     rounds := [];
     late := [];
     closing := 1700000003; closed_at := 1700000003.5 |}.

(** The same world with a webcam that does not open. *)
Definition unopened : world :=
  {| opened := Ok Ws; connected_at := 1700000000;
     auth_tx := Ok (); auth_start := 1700000000.5;
     auth_script :=
       [(1700000000.75%float,
         RecvJson (JDict [("type", JStr "auth_success")]))];
     made := Ok {| isOpened := false |};
     stream_start := 1700000001;
     rounds := [];
     late := [];
     closing := 1700000003; closed_at := 1700000003.5 |}.

(** * Properties *)

(** ** [send_times] stays within 1000 entries *)

Lemma dom_foldl_delete (l : list Z) (m : gmap Z float) :
  dom (foldl (λ m key, delete key m) m l) = dom m ∖ list_to_set l.
Proof.
  revert m. induction l as [|k l IH]; intros m; simpl.
  - set_solver.
  - rewrite IH, dom_delete_L. set_solver.
Qed.

Lemma foldl_delete_subseteq (l : list Z) (m : gmap Z float) :
  foldl (λ m key, delete key m) m l ⊆ m.
Proof.
  revert m. induction l as [|k l IH]; intros m; simpl; [done|].
  etrans; [apply IH|apply delete_subseteq].
Qed.

Lemma sorted_keys_NoDup m : NoDup (sorted_keys m).
Proof.
  unfold sorted_keys. rewrite merge_sort_Permutation.
  apply NoDup_fst_map_to_list.
Qed.

Lemma sorted_keys_length m : length (sorted_keys m) = size m.
Proof.
  unfold sorted_keys. rewrite merge_sort_Permutation.
  by rewrite length_fmap, length_map_to_list.
Qed.

Lemma sorted_keys_dom m : list_to_set (sorted_keys m) = dom m.
Proof.
  apply set_eq. intros k. unfold sorted_keys.
  rewrite elem_of_list_to_set, merge_sort_Permutation, dom_alt.
  by rewrite elem_of_list_to_set.
Qed.

Lemma sorted_keys_sorted m : StronglySorted Z.le (sorted_keys m).
Proof.
  apply Sorted_StronglySorted; [apply _|].
  unfold sorted_keys. apply Sorted_merge_sort; apply _.
Qed.

Lemma clean_up_dom m : dom (clean_up m) = dom m ∖ list_to_set (old_keys m).
Proof.
  unfold clean_up, old_keys. case_decide.
  - apply dom_foldl_delete.
  - set_solver.
Qed.

Lemma clean_up_subseteq m : clean_up m ⊆ m.
Proof.
  unfold clean_up. case_decide; [apply foldl_delete_subseteq|done].
Qed.

Lemma old_keys_length m : length (old_keys m) = size m - 1000.
Proof.
  unfold old_keys, drop_last. case_decide.
  - rewrite length_take, sorted_keys_length. lia.
  - simpl. lia.
Qed.

Lemma old_keys_split m :
  ∃ kept, sorted_keys m = old_keys m ++ kept.
Proof.
  unfold old_keys, drop_last. case_decide.
  - eexists. symmetry. apply take_drop.
  - by exists (sorted_keys m).
Qed.

Lemma old_keys_evicted m :
  list_to_set (old_keys m) = dom m ∖ dom (clean_up m).
Proof.
  rewrite clean_up_dom. destruct (old_keys_split m) as [kept Hk].
  rewrite <-sorted_keys_dom, Hk, list_to_set_app_L.
  apply set_eq. intros k. rewrite !elem_of_difference, elem_of_union.
  destruct (decide (k ∈@{gset Z} list_to_set (old_keys m))); naive_solver.
Qed.

Lemma old_keys_smallest m e r :
  e ∈ old_keys m → r ∈ dom (clean_up m) → (e < r)%Z.
Proof.
  intros He Hr. destruct (old_keys_split m) as [kept Hk].
  pose proof (sorted_keys_NoDup m) as Hnd.
  pose proof (sorted_keys_sorted m) as Hs.
  rewrite Hk in Hnd, Hs.
  rewrite clean_up_dom, <-sorted_keys_dom, Hk, list_to_set_app_L in Hr.
  assert (r ∈ kept) as Hrk by set_solver.
  apply NoDup_app in Hnd as (_ & Hdis & _).
  pose proof (StronglySorted_app_1_elem_of _ _ _ _ _ Hs He Hrk).
  assert (e ≠ r) by (intros ->; by eapply Hdis).
  lia.
Qed.

Lemma clean_up_size m : size (clean_up m) = size m `min` 1000.
Proof.
  rewrite <-!size_dom, clean_up_dom.
  rewrite size_difference.
  - rewrite size_list_to_set.
    + rewrite old_keys_length, size_dom. lia.
    + destruct (old_keys_split m) as [kept Hk].
      pose proof (sorted_keys_NoDup m) as Hnd. rewrite Hk in Hnd.
      by apply NoDup_app in Hnd as (? & _).
  - rewrite old_keys_evicted. set_solver.
Qed.


Lemma send_frame_passes c frame_data t tx :
  is_Some (websocket c) → is_authenticated c = true →
  send_times (state_of (send_frame c frame_data t tx))
    = clean_up (<[(frame_count c + 1)%Z := t]> (send_times c)) ∧
  frame_count (state_of (send_frame c frame_data t tx))
    = (frame_count c + 1)%Z.
Proof.
  intros [w Hw] Ha. unfold send_frame. rewrite Hw, Ha.
  by destruct tx.
Qed.

Lemma send_frame_refuses c frame_data t tx :
  websocket c = None ∨ is_authenticated c = false →
  send_frame c frame_data t tx = (c, [], false).
Proof.
  unfold send_frame. intros [-> | Ha]; [done|].
  rewrite Ha. by destruct (websocket c).
Qed.

Lemma send_frame_size c frame_data t tx :
  size (send_times c) ≤ 1000 →
  size (send_times (state_of (send_frame c frame_data t tx))) ≤ 1000.
Proof.
  intros Hc.
  destruct (websocket c) as [w|] eqn:Hw;
    [destruct (is_authenticated c) eqn:Ha|].
  - destruct (send_frame_passes c frame_data t tx) as [-> _]; [by eexists|done|].
    rewrite clean_up_size. lia.
  - by rewrite send_frame_refuses by auto.
  - by rewrite send_frame_refuses by auto.
Qed.

(** The consumer only deletes from [send_times]. *)
Lemma calculate_ack_latency_send_times c frame_num t c' o :
  calculate_ack_latency c frame_num t = Ok (c', o) →
  send_times c' ⊆ send_times c.
Proof.
  unfold calculate_ack_latency. destruct (py_int_key frame_num) as [key|]; [|done].
  simpl. destruct (key ≫= _) as [[k sent]|]; intros [= <- <-]; [|done].
  apply delete_subseteq.
Qed.

Lemma on_frame_received_send_times c data t :
  send_times (on_frame_received c data t).1 ⊆ send_times c.
Proof.
  unfold on_frame_received.
  destruct (py_get data "frame_number" JNull) as [frame_num|]; [|done].
  destruct (calculate_ack_latency c frame_num t) as [[c' o]|] eqn:Hc; [|done].
  apply calculate_ack_latency_send_times in Hc.
  destruct (py_get data "total_frames" (JInt 0)); [|done].
  by destruct (py_mod_50 frame_num).
Qed.

Lemma handle_message_send_times c data t :
  send_times (handle_message c data t).1 ⊆ send_times c.
Proof.
  unfold handle_message.
  destruct (py_get data "type" JNull) as [msg_type|]; [|done].
  repeat case_match; try done.
  apply on_frame_received_send_times.
Qed.

Lemma handle_messages_iter_send_times c r t :
  send_times (handle_messages_iter c r t).1 ⊆ send_times c.
Proof.
  unfold handle_messages_iter.
  destruct r as [e| |data]; [by destruct e|done|].
  pose proof (handle_message_send_times c data t).
  destruct (handle_message c data t) as [c' f].
  destruct f as [| |e]; [done|done|by destruct e].
Qed.

Lemma stream_frames_iter_size c interval last k :
  size (send_times c) ≤ 1000 →
  size (send_times (stream_frames_iter c interval last k).1.1) ≤ 1000.
Proof.
  intros Hc. unfold stream_frames_iter.
  destruct (capture_frame c (camera_read k)) as [frame_data|].
  - destruct (str_truthy frame_data).
    + pose proof (send_frame_size c frame_data (send_time k) (tx k) Hc) as Hs.
      destruct (send_frame c frame_data (send_time k) (tx k)) as [[c' sent] b].
      by destruct (pacing k) as [[now after]|].
    + by destruct (pacing k) as [[now after]|].
  - by destruct (pacing k) as [[now after]|].
Qed.

Lemma step_bounded σ ev : bounded σ → bounded (step σ ev).
Proof.
  unfold bounded. intros Hσ. destruct ev as [k|r t]; simpl.
  - unfold produce. destruct (producer σ); [|done].
    destruct (is_streaming (client σ)); [|done].
    pose proof (stream_frames_iter_size (client σ) (frame_interval σ)
                  (last_frame_time σ) k Hσ).
    by destruct (stream_frames_iter _ _ _ _) as [[c last] effs].
  - unfold consume. destruct (consumer σ); [|done].
    destruct (_ && _); [|done].
    pose proof (handle_messages_iter_send_times (client σ) r t) as Hsub.
    destruct (handle_messages_iter _ _ _) as [c f]. simpl in *.
    apply map_subseteq_size in Hsub. lia.
Qed.

Lemma run_bounded σ evs : bounded σ → bounded (run σ evs).
Proof.
  unfold run. revert σ. induction evs as [|ev evs IH]; intros σ Hσ; simpl; [done|].
  by apply IH, step_bounded.
Qed.

(** C1. However the rounds of the two loops interleave, [send_times] holds
    at most 1000 entries when [send_frame] is called and when it returns;
    an insertion that exceeds the cap evicts exactly the surplus, and every
    evicted sequence number is smaller than every one that stays. *)
Theorem send_times_bounded_evicts_smallest
    (σ : session) (evs : list event)
    (frame_data : string) (t : float) (tx : result unit) :
  size (send_times (client σ)) ≤ 1000 →
  let c := client (run σ evs) in
  let c' := state_of (send_frame c frame_data t tx) in
  size (send_times c) ≤ 1000 ∧
  size (send_times c') ≤ 1000 ∧
  (is_Some (websocket c) → is_authenticated c = true →
   let present := <[(frame_count c + 1)%Z := t]> (send_times c) in
   let evicted := dom present ∖ dom (send_times c') in
   send_times c' ⊆ present ∧
   size evicted = size present - 1000 ∧
   ∀ e r, e ∈ evicted → r ∈ dom (send_times c') → (e < r)%Z).
Proof.
  intros Hσ c c'.
  assert (size (send_times c) ≤ 1000) as Hc by by apply (run_bounded σ evs).
  split; [done|]. split; [by apply send_frame_size|].
  intros Hw Ha present evicted.
  destruct (send_frame_passes c frame_data t tx Hw Ha) as [Hst _].
  fold c' in Hst. fold present in Hst. subst evicted. rewrite Hst.
  rewrite <-old_keys_evicted. split; [apply clean_up_subseteq|]. split.
  - rewrite size_list_to_set, old_keys_length; [done|].
    destruct (old_keys_split present) as [kept Hk].
    pose proof (sorted_keys_NoDup present) as Hnd. rewrite Hk in Hnd.
    by apply NoDup_app in Hnd as (? & _).
  - intros e r He Hr. apply (old_keys_smallest present); [|done].
    by apply elem_of_list_to_set in He.
Qed.

(** C10. Without a transport, or before authentication, [send_frame]
    returns [False] and leaves the client as it was: [frame_count] and
    [send_times] keep their values and nothing is handed to the
    transport. *)
Theorem send_frame_not_ready_unchanged
    (c : MoverisClient) (frame_data : string) (t : float) (tx : result unit) :
  websocket c = None ∨ is_authenticated c = false →
  value_of (send_frame c frame_data t tx) = false ∧
  state_of (send_frame c frame_data t tx) = c ∧
  effects_of (send_frame c frame_data t tx) = [].
Proof.
  intros H. by rewrite send_frame_refuses.
Qed.


(** ** Frame numbering *)

Lemma frame_numbers_app tr1 tr2 :
  frame_numbers (tr1 ++ tr2) = frame_numbers tr1 ++ frame_numbers tr2.
Proof. apply omap_app. Qed.

Lemma send_frame_cases c frame_data t tx :
  (send_frame c frame_data t tx = (c, [], false) ∧
   (websocket c = None ∨ is_authenticated c = false)) ∨
  (is_Some (websocket c) ∧ is_authenticated c = true ∧
   frame_count (state_of (send_frame c frame_data t tx))
     = (frame_count c + 1)%Z ∧
   frame_numbers (effects_of (send_frame c frame_data t tx))
     = [(frame_count c + 1)%Z] ∧
   value_of (send_frame c frame_data t tx) = succeeded tx).
Proof.
  unfold send_frame.
  destruct (websocket c) as [w|]; [|left; auto].
  destruct (is_authenticated c); [|left; auto].
  right. split; [by eexists|]. split; [done|].
  destruct tx as [[]|e]; simpl; by repeat split.
Qed.

Lemma stream_frames_iter_numbers c interval last k :
  let out := stream_frames_iter c interval last k in
  (frame_count out.1.1 = frame_count c ∧ frame_numbers out.2 = []) ∨
  (frame_count out.1.1 = (frame_count c + 1)%Z ∧
   frame_numbers out.2 = [(frame_count c + 1)%Z]).
Proof.
  unfold stream_frames_iter.
  assert (∀ sent : list effect, ∀ c' : MoverisClient,
            let out := match pacing k with
                       | Ok (now, after) =>
                           (c', after,
                            sent ++ (if (0 <? py_max_0 (interval - (now - last)))%float
                                     then [Sleep (py_max_0 (interval - (now - last)))]
                                     else []))
                       | Raise _ => (c', last, sent ++ [Sleep backoff])
                       end in
            out.1.1 = c' ∧ frame_numbers out.2 = frame_numbers sent) as Hp.
  { intros sent c'. destruct (pacing k) as [[now after]|]; simpl.
    - rewrite frame_numbers_app. destruct (_ <? _)%float; simpl;
        by rewrite app_nil_r.
    - by rewrite frame_numbers_app, app_nil_r. }
  destruct (capture_frame c (camera_read k)) as [frame_data|].
  - destruct (str_truthy frame_data).
    + destruct (send_frame_cases c frame_data (send_time k) (tx k))
        as [[Heq _] | (_ & _ & Hfc & Hnum & _)].
      * rewrite Heq. destruct (Hp [] c) as [-> ->]. by left.
      * destruct (send_frame c frame_data (send_time k) (tx k)) as [[c' sent] b].
        destruct (Hp sent c') as [-> ->]. by right.
    + destruct (Hp [] c) as [-> ->]. by left.
  - destruct (Hp [] c) as [-> ->]. by left.
Qed.

Lemma handle_messages_iter_frame_count c r t :
  frame_count (handle_messages_iter c r t).1 = frame_count c.
Proof.
  unfold handle_messages_iter.
  destruct r as [e| |data]; [by destruct e|done|].
  assert (frame_count (handle_message c data t).1 = frame_count c) as H.
  { unfold handle_message.
    destruct (py_get data "type" JNull) as [msg_type|]; [|done].
    repeat case_match; try done. subst.
    unfold on_frame_received.
    destruct (py_get data "frame_number" JNull) as [frame_num|]; [|done].
    destruct (calculate_ack_latency c frame_num t) as [[c' o]|] eqn:Hc; [|done].
    assert (frame_count c' = frame_count c) as <-.
    { unfold calculate_ack_latency in Hc.
      destruct (py_int_key frame_num) as [key|]; [|done]. simpl in Hc.
      destruct (key ≫= _) as [[k' sent]|]; by injection Hc as <- <-. }
    destruct (py_get data "total_frames" (JInt 0)); [|done].
    by destruct (py_mod_50 frame_num). }
  destruct (handle_message c data t) as [c' f].
  destruct f as [| |e]; [done|done|by destruct e].
Qed.

Lemma step_numbers σ ev :
  ∃ n : Z, (0 ≤ n)%Z ∧
    frame_numbers (trace (step σ ev))
      = frame_numbers (trace σ) ++ seqZ (frame_count (client σ) + 1) n ∧
    frame_count (client (step σ ev)) = (frame_count (client σ) + n)%Z.
Proof.
  destruct ev as [k|r t]; simpl.
  - unfold produce. destruct (producer σ).
    2:{ exists 0%Z. rewrite app_nil_r. split; [done|]. split; [done|lia]. }
    destruct (is_streaming (client σ)).
    2:{ exists 0%Z. simpl. rewrite app_nil_r. split; [done|]. split; [done|lia]. }
    pose proof (stream_frames_iter_numbers (client σ) (frame_interval σ)
                  (last_frame_time σ) k) as H. simpl in H.
    destruct (stream_frames_iter _ _ _ _) as [[c last] effs]. simpl in *.
    rewrite frame_numbers_app.
    destruct H as [[-> ->] | [-> ->]].
    + exists 0%Z. split; [done|]. split; [done|lia].
    + exists 1%Z. split; [lia|]. done.
  - exists 0%Z. split; [done|]. rewrite app_nil_r. unfold consume.
    destruct (consumer σ); [|split; [done|lia]].
    destruct (_ && _); [|split; [done|simpl; lia]].
    pose proof (handle_messages_iter_frame_count (client σ) r t) as H.
    destruct (handle_messages_iter _ _ _) as [c f]. simpl in *.
    split; [done|lia].
Qed.

Lemma run_numbers σ evs :
  ∃ n : Z, (0 ≤ n)%Z ∧
    frame_numbers (trace (run σ evs))
      = frame_numbers (trace σ) ++ seqZ (frame_count (client σ) + 1) n ∧
    frame_count (client (run σ evs)) = (frame_count (client σ) + n)%Z.
Proof.
  unfold run. revert σ. induction evs as [|ev evs IH]; intros σ; simpl.
  - exists 0%Z. rewrite app_nil_r. split; [done|]. split; [done|lia].
  - destruct (step_numbers σ ev) as (n1 & Hn1 & Ht1 & Hc1).
    destruct (IH (step σ ev)) as (n2 & Hn2 & Ht2 & Hc2).
    exists (n1 + n2)%Z. split; [lia|]. split; [|lia].
    rewrite Ht2, Ht1, Hc1, <-app_assoc. f_equal.
    rewrite seqZ_app by done. do 2 f_equal. lia.
Qed.

(** C2, as the code has it. A call of [send_frame] that gets past its guard
    adds exactly one to [frame_count], before the transmission is attempted
    and whether or not it succeeds; the call reports whether it succeeded.
    The numbers the producer assigns during a run are therefore consecutive,
    whatever the captures and transmissions did: from a client that has sent
    nothing they are 1, 2, ..., [frame_count]. *)
Theorem frame_count_counts_attempts
    (c : MoverisClient) (frame_data : string) (t : float) (tx : result unit)
    (σ : session) (evs : list event) :
  is_Some (websocket c) → is_authenticated c = true →
  (frame_count (state_of (send_frame c frame_data t tx))
     = (frame_count c + 1)%Z ∧
   frame_numbers (effects_of (send_frame c frame_data t tx))
     = [(frame_count c + 1)%Z] ∧
   value_of (send_frame c frame_data t tx) = succeeded tx) ∧
  (frame_count (client σ) = 0%Z → trace σ = [] →
   frame_numbers (trace (run σ evs))
     = seqZ 1 (frame_count (client (run σ evs))) ∧
   (0 ≤ frame_count (client (run σ evs)))%Z).
Proof.
  intros Hw Ha. split.
  - destruct (send_frame_cases c frame_data t tx) as [[_ [H|H]] | H].
    + rewrite H in Hw. by destruct Hw.
    + congruence.
    + tauto.
  - intros Hfc Htr. destruct (run_numbers σ evs) as (n & Hn & Ht & Hc).
    rewrite Ht, Hc, Htr, Hfc. simpl. split; [done|lia].
Qed.


(** ** [disconnect] and the session statistics *)

(** C3, what the code does. The average rate is computed without a test on
    [duration]: when the clock read by [disconnect] equals
    [connection_start], the division raises [ZeroDivisionError] and
    [disconnect] faults (after the resources are released). *)
Theorem disconnect_zero_duration_faults
    (c : MoverisClient) (t0 now : float) :
  connection_start c = Some t0 →
  float_truthy t0 = true →
  (now - t0 =? 0)%float = true →
  succeeded (float_of_int (frame_count c)) = true →
  value_of (disconnect c now) = Raise ZeroDivisionError.
Proof.
  intros Hs Ht Hd Hf. unfold disconnect, value_of.
  destruct (camera (set_is_streaming false c));
    destruct (websocket _); simpl; rewrite Hs, Ht;
    unfold py_int_truediv_float;
    destruct (float_of_int (frame_count c)); try done; simpl; by rewrite Hd.
Qed.

(** ** [ack_times] keeps the last 50 samples *)

Lemma send_frame_ack_times c frame_data t tx :
  ack_times (state_of (send_frame c frame_data t tx)) = ack_times c.
Proof.
  unfold send_frame. destruct (websocket c); [|done].
  destruct (is_authenticated c); [|done]. by destruct tx.
Qed.

Lemma stream_frames_iter_ack_times c interval last k :
  ack_times (stream_frames_iter c interval last k).1.1 = ack_times c.
Proof.
  unfold stream_frames_iter.
  destruct (capture_frame c (camera_read k)) as [frame_data|].
  - destruct (str_truthy frame_data).
    + pose proof (send_frame_ack_times c frame_data (send_time k) (tx k)) as Hs.
      destruct (send_frame c frame_data (send_time k) (tx k)) as [[c' sent] b].
      by destruct (pacing k) as [[now after]|].
    + by destruct (pacing k) as [[now after]|].
  - by destruct (pacing k) as [[now after]|].
Qed.

Lemma calculate_ack_latency_cases c frame_num t :
  match calculate_ack_latency c frame_num t with
  | Raise e => pending c frame_num = false
  | Ok (c', None) => c' = c ∧ pending c frame_num = false
  | Ok (c', Some latency) =>
      pending c frame_num = true ∧
      (length (ack_times c) ≤ 50 → appended (ack_times c) (ack_times c'))
  end.
Proof.
  unfold calculate_ack_latency, pending.
  destruct (py_int_key frame_num) as [[k|]|]; simpl; [|done..].
  destruct (send_times c !! k) as [sent|] eqn:Hk; simpl.
  - split; [done|]. intros Hlen.
    case_decide as H50.
    + rewrite length_app in H50. simpl in H50.
      destruct (ack_times c) as [|oldest rest] eqn:Ho; simpl in *; [lia|].
      eapply appended_full; [done|]. simpl. lia.
    + apply appended_room. rewrite length_app in H50. simpl in H50. lia.
  - done.
Qed.

Lemma appended_length old new :
  appended old new → length old ≤ 50 → length new ≤ 50.
Proof.
  intros [latency Hlt | oldest rest latency -> Hlen] _;
    rewrite length_app; simpl in *; lia.
Qed.

Lemma handle_messages_iter_ack_times c r t :
  length (ack_times c) ≤ 50 →
  ack_times (handle_messages_iter c r t).1 = ack_times c ∨
  appended (ack_times c) (ack_times (handle_messages_iter c r t).1).
Proof.
  intros Hlen. unfold handle_messages_iter.
  destruct r as [e| |data]; [left; by destruct e|by left|].
  assert (ack_times (handle_message c data t).1 = ack_times c ∨
          appended (ack_times c) (ack_times (handle_message c data t).1)) as H.
  { unfold handle_message.
    destruct (py_get data "type" JNull) as [msg_type|]; [|by left].
    repeat case_match; try (by left). subst.
    unfold on_frame_received.
    destruct (py_get data "frame_number" JNull) as [frame_num|]; [|by left].
    pose proof (calculate_ack_latency_cases c frame_num t) as Hc.
    destruct (calculate_ack_latency c frame_num t) as [[c' [latency|]]|];
      [|destruct Hc as [-> _]|by left].
    - right. destruct Hc as [_ Hc].
      destruct (py_get data "total_frames" (JInt 0)); [|by apply Hc].
      destruct (py_mod_50 frame_num); by apply Hc.
    - left. destruct (py_get data "total_frames" (JInt 0)); [|done].
      by destruct (py_mod_50 frame_num). }
  destruct (handle_message c data t) as [c' f].
  destruct f as [| |e]; [done|done|by destruct e].
Qed.

Lemma step_ack_times σ ev :
  length (ack_times (client σ)) ≤ 50 →
  length (ack_times (client (step σ ev))) ≤ 50.
Proof.
  intros Hσ. destruct ev as [k|r t]; simpl.
  - unfold produce. destruct (producer σ); [|done].
    destruct (is_streaming (client σ)); [|done].
    pose proof (stream_frames_iter_ack_times (client σ) (frame_interval σ)
                  (last_frame_time σ) k) as H.
    destruct (stream_frames_iter _ _ _ _) as [[c last] effs]. simpl in *.
    by rewrite H.
  - unfold consume. destruct (consumer σ); [|done].
    destruct (_ && _); [|done].
    pose proof (handle_messages_iter_ack_times (client σ) r t Hσ) as H.
    destruct (handle_messages_iter _ _ _) as [c f]. simpl in *.
    destruct H as [-> | H]; [done|by eapply appended_length].
Qed.

Lemma run_ack_times σ evs :
  length (ack_times (client σ)) ≤ 50 →
  length (ack_times (client (run σ evs))) ≤ 50.
Proof.
  unfold run. revert σ. induction evs as [|ev evs IH]; intros σ Hσ; simpl; [done|].
  by apply IH, step_ack_times.
Qed.

(** What a round of the consumer does to [ack_times], read off lines
    204-212. *)
Lemma handle_messages_iter_acknowledged c r t :
  ack_times (handle_messages_iter c r t).1 =
    match acknowledged c r with
    | Some sent =>
        let acks := ack_times c ++ [((t - sent) * 1000)%float] in
        if decide (50 < length acks) then tail acks else acks
    | None => ack_times c
    end.
Proof.
  unfold handle_messages_iter.
  destruct r as [e| |data]; [by destruct e|done|].
  assert (ack_times (handle_message c data t).1 =
            match acknowledged c (RecvJson data) with
            | Some sent =>
                let acks := ack_times c ++ [((t - sent) * 1000)%float] in
                if decide (50 < length acks) then tail acks else acks
            | None => ack_times c
            end) as Hm.
  { unfold handle_message, acknowledged, msg_type.
    destruct (py_get data "type" JNull) as [ty|]; [|done].
    destruct (is_str ty "frame_received").
    - unfold on_frame_received.
      destruct (py_get data "frame_number" JNull) as [frame_num|]; [|done].
      unfold calculate_ack_latency.
      destruct (py_int_key frame_num) as [[k|]|]; simpl; [| |done].
      + destruct (send_times c !! k) as [sent|]; simpl;
          (destruct (py_get data "total_frames" (JInt 0)); [|done]);
          by destruct (py_mod_50 frame_num).
      + destruct (py_get data "total_frames" (JInt 0)); [|done].
        by destruct (py_mod_50 frame_num).
    - repeat case_match; done. }
  etrans; [|exact Hm]. clear Hm.
  destruct (handle_message c data t) as [c' f].
  destruct f as [| |e]; [done|done|by destruct e].
Qed.

(** C5. However the rounds of the two loops interleave, [ack_times] holds at
    most 50 samples before and after every message the consumer handles.  A
    message that acknowledges a frame in flight appends its latency at the
    tail; when the list already holds 50 samples the head, which is the
    oldest sample, is the one that leaves, and the other 49 stay in order.
    Any other message leaves [ack_times] as it is. *)
Theorem ack_times_bounded_oldest_first
    (σ : session) (evs : list event) (r : recv_result) (receive_time : float) :
  length (ack_times (client σ)) ≤ 50 →
  let c := client (run σ evs) in
  let c' := (handle_messages_iter c r receive_time).1 in
  length (ack_times c) ≤ 50 ∧
  length (ack_times c') ≤ 50 ∧
  match acknowledged c r with
  | Some sent =>
      let latency := ((receive_time - sent) * 1000)%float in
      if decide (length (ack_times c) < 50)
      then ack_times c' = ack_times c ++ [latency]
      else ∃ oldest rest,
             ack_times c = oldest :: rest ∧ ack_times c' = rest ++ [latency]
  | None => ack_times c' = ack_times c
  end.
Proof.
  intros Hσ c c'.
  assert (length (ack_times c) ≤ 50) as Hc by by apply run_ack_times.
  pose proof (handle_messages_iter_acknowledged c r receive_time) as H.
  fold c' in H. split; [done|].
  destruct (acknowledged c r) as [sent|]; [|by rewrite H].
  cbv zeta in H |- *. rewrite H, length_app. clear H.
  destruct (ack_times c) as [|oldest rest] eqn:Hacks;
    repeat case_decide; simpl in *; rewrite ?length_app; simpl; try lia;
    (split; [lia|]); eauto.
Qed.

(** C9. An acknowledgement whose [frame_number] is not a key of
    [send_times] computes no latency: the lookup returns the client as it
    was (or raises, for an unhashable value), and the message leaves
    [ack_times] and [send_times] unchanged. *)
Theorem unknown_ack_records_nothing
    (c : MoverisClient) (data frame_num : json) (receive_time : float) :
  py_get data "type" JNull = Ok (JStr "frame_received") →
  py_get data "frame_number" JNull = Ok frame_num →
  pending c frame_num = false →
  calculate_ack_latency c frame_num receive_time
    = (_ ← py_int_key frame_num; Ok (c, None)) ∧
  ack_times (handle_messages_iter c (RecvJson data) receive_time).1
    = ack_times c ∧
  send_times (handle_messages_iter c (RecvJson data) receive_time).1
    = send_times c.
Proof.
  intros Hty Hnum Hp.
  assert (calculate_ack_latency c frame_num receive_time
            = (_ ← py_int_key frame_num; Ok (c, None))) as Hcalc.
  { unfold pending in Hp. unfold calculate_ack_latency.
    destruct (py_int_key frame_num) as [[k|]|]; simpl; [|done..].
    destruct (send_times c !! k) eqn:Hk; simpl; [|done].
    apply bool_decide_eq_false in Hp. exfalso. apply Hp. eauto. }
  split; [done|].
  unfold handle_messages_iter, handle_message. rewrite Hty. simpl.
  unfold on_frame_received. rewrite Hnum, Hcalc.
  destruct (py_int_key frame_num) as [key|e]; simpl; [|by destruct e].
  destruct (py_get data "total_frames" (JInt 0)) as [total|e]; [|by destruct e].
  destruct (py_mod_50 frame_num) as [|e]; [done|]. by destruct e.
Qed.


(** ** Control flow of the two loops *)

Lemma send_frame_is_streaming c frame_data t tx :
  is_streaming (state_of (send_frame c frame_data t tx)) = is_streaming c.
Proof.
  unfold send_frame. destruct (websocket c); [|done].
  destruct (is_authenticated c); [|done]. by destruct tx.
Qed.

Lemma stream_frames_iter_fault c interval last k e :
  pacing k = Raise e →
  is_streaming (stream_frames_iter c interval last k).1.1 = is_streaming c ∧
  (stream_frames_iter c interval last k).1.2 = last ∧
  ∃ sent, (stream_frames_iter c interval last k).2 = sent ++ [Sleep backoff].
Proof.
  intros Hp. unfold stream_frames_iter. rewrite Hp.
  destruct (capture_frame c (camera_read k)) as [frame_data|].
  - destruct (str_truthy frame_data).
    + pose proof (send_frame_is_streaming c frame_data (send_time k) (tx k)) as Hs.
      destruct (send_frame c frame_data (send_time k) (tx k)) as [[c' sent] b].
      simpl. eauto.
    + simpl. do 2 (split; [done|]). by exists [].
  - simpl. do 2 (split; [done|]). by exists [].
Qed.

(** The consumer clears the streaming flag exactly when it breaks out of
    its loop. *)
Lemma handle_message_is_streaming c data t :
  match (handle_message c data t).2 with
  | Break => is_streaming (handle_message c data t).1 = false
  | _ => is_streaming (handle_message c data t).1 = is_streaming c
  end.
Proof.
  unfold handle_message.
  destruct (py_get data "type" JNull) as [ty|]; [|done].
  repeat case_match; simplify_eq/=; try done; unfold on_frame_received in *;
    repeat case_match; simplify_eq/=; try done.
  all: match goal with
       | H : calculate_ack_latency _ _ _ = Ok _ |- _ =>
           unfold calculate_ack_latency in H;
           destruct (py_int_key _) as [key|]; simplify_eq/=;
           destruct (key ≫= _) as [[??]|]; by simplify_eq/=
       end.
Qed.

Lemma handle_messages_iter_is_streaming c r t :
  match (handle_messages_iter c r t).2 with
  | Break => is_streaming (handle_messages_iter c r t).1 = false
  | _ => is_streaming (handle_messages_iter c r t).1 = is_streaming c
  end.
Proof.
  unfold handle_messages_iter.
  destruct r as [e| |data]; [by destruct e|done|].
  pose proof (handle_message_is_streaming c data t) as H.
  destruct (handle_message c data t) as [c' f].
  destruct f as [| |e]; [done|done|by destruct e].
Qed.


Lemma is_number_percent o :
  is_number 100 o = true →
  ∃ p, py_mul_100 (from_option id (JInt 0) o) = Ok p ∧ py_format_f p = Ok ().
Proof.
  destruct o as [[| |n|x| | |]|]; try done.
  - simpl. intros Hn. exists (JInt (n * 100)). split; [done|]. simpl.
    by destruct (float_of_int (n * 100)).
  - intros _. by exists (JFloat (x * 100)).
  - intros _. exists (JInt 0). by vm_compute.
Qed.

Lemma is_number_format o :
  is_number 1 o = true → py_format_f (from_option id (JInt 0) o) = Ok ().
Proof.
  destruct o as [[| |n|x| | |]|]; try done.
  simpl. rewrite Z.mul_1_r. by destruct (float_of_int n).
Qed.

Lemma log_processing_complete_schema data res :
  py_get data "result" (JDict []) = Ok (JDict res) →
  is_number 100 (assoc "ai_probability" res) = true →
  is_number 1 (assoc "confidence" res) = true →
  is_number 1 (assoc "processing_time_seconds" res) = true →
  log_processing_complete data = Ok ().
Proof.
  intros Hres Hp Hc Hs. unfold log_processing_complete. rewrite Hres.
  destruct data as [| | | | | |kv]; try done.
  destruct (is_number_percent _ Hp) as (p & Hmul & Hfmt).
  cbn [mbind result_bind py_get]. rewrite Hmul. cbn [mbind result_bind].
  rewrite Hfmt. cbn [mbind result_bind].
  rewrite (is_number_format _ Hc). cbn [mbind result_bind].
  by rewrite (is_number_format _ Hs).
Qed.

Lemma handle_message_schema c data t :
  follows_schema data = true →
  handle_message c data t =
    if is_str (msg_type data) "disconnect"
    then (set_is_streaming false c, Break)
    else ((handle_message c data t).1, Continue).
Proof.
  unfold follows_schema, handle_message, msg_type.
  destruct data as [| | | | | |kv]; try done. simpl.
  generalize (from_option id JNull (assoc "type" kv)). intros ty.
  destruct (is_str ty "frame_received") eqn:H1.
  { assert (is_str ty "disconnect" = false) as ->.
    { destruct ty; try done. simpl in *. apply String.eqb_eq in H1 as ->. done. }
    unfold on_frame_received. simpl.
    destruct (from_option id JNull (assoc "frame_number" kv))
      as [| |n|x| | |]; try done; intros _.
    - destruct (calculate_ack_latency _ _ _) as [[c' o]|] eqn:Hc; [done|].
      unfold calculate_ack_latency in Hc. simpl in Hc.
      by destruct (send_times c !! n).
    - destruct (calculate_ack_latency _ _ _) as [[c' o]|] eqn:Hc; [done|].
      unfold calculate_ack_latency in Hc. simpl in Hc.
      destruct (float_integer x) as [k|]; simpl in Hc; [|done].
      by destruct (send_times c !! k). }
  destruct (is_str ty "processing_started") eqn:H2.
  { assert (is_str ty "disconnect" = false) as ->; [|done].
    destruct ty; try done. simpl in *. apply String.eqb_eq in H2 as ->. done. }
  destruct (is_str ty "processing_complete") eqn:H3.
  { assert (is_str ty "disconnect" = false) as ->.
    { destruct ty; try done. simpl in *. apply String.eqb_eq in H3 as ->. done. }
    destruct (from_option id (JDict []) (assoc "result" kv))
      as [| | | | | |res] eqn:Hres; try done.
    intros (Hx%andb_prop & Hz)%andb_prop. destruct Hx as [Hx Hy].
    rewrite (log_processing_complete_schema (JDict kv) res); try done.
    simpl. by rewrite Hres. }
  destruct (is_str ty "error") eqn:H4.
  { assert (is_str ty "disconnect" = false) as ->; [|done].
    destruct ty; try done. simpl in *. apply String.eqb_eq in H4 as ->. done. }
  by destruct (is_str ty "disconnect").
Qed.

Lemma on_frame_received_flow c data t :
  (on_frame_received c data t).2 ≠ Break.
Proof.
  unfold on_frame_received.
  destruct (py_get data "frame_number" JNull) as [frame_num|]; [|done].
  destruct (calculate_ack_latency c frame_num t) as [[c' o]|]; [|done].
  destruct (py_get data "total_frames" (JInt 0)); [|done].
  by destruct (py_mod_50 frame_num).
Qed.

Lemma is_str_exclusive ty s1 s2 :
  is_str ty s1 = true → s1 ≠ s2 → is_str ty s2 = false.
Proof.
  destruct ty; try done. simpl. intros ->%String.eqb_eq Hne.
  by apply String.eqb_neq.
Qed.

(** Only the [disconnect] branch breaks out of the loop. *)
Lemma handle_message_break c data t :
  if is_str (msg_type data) "disconnect"
  then handle_message c data t = (set_is_streaming false c, Break)
  else (handle_message c data t).2 ≠ Break.
Proof.
  unfold handle_message, msg_type.
  destruct (py_get data "type" JNull) as [ty|]; [|done].
  destruct (is_str ty "frame_received") eqn:H1.
  { rewrite (is_str_exclusive ty _ "disconnect" H1) by done.
    apply on_frame_received_flow. }
  destruct (is_str ty "processing_started") eqn:H2.
  { by rewrite (is_str_exclusive ty _ "disconnect" H2). }
  destruct (is_str ty "processing_complete") eqn:H3.
  { rewrite (is_str_exclusive ty _ "disconnect" H3) by done.
    by destruct (log_processing_complete data). }
  destruct (is_str ty "error") eqn:H4.
  { by rewrite (is_str_exclusive ty _ "disconnect" H4). }
  by destruct (is_str ty "disconnect").
Qed.


(** ** [authenticate] *)

Lemma auth_message_indefinite r :
  indefinite r →
  auth_message r = Ok None ∨ auth_message r = Raise TimeoutError.
Proof.
  intros [-> | (data & ty & -> & Hty & Hs & He)]; [by right|left].
  unfold auth_message. rewrite Hty. simpl. by rewrite Hs, He.
Qed.

(** Once the clock leaves the window the loop is over, whatever was
    received before. *)
Lemma auth_wait_terminates start_time before now r after :
  (now - start_time <? 10)%float = false →
  is_Some (auth_wait start_time (before ++ (now, r) :: after)).
Proof.
  intros Hnow. induction before as [|[t' r'] before IH]; simpl.
  - by rewrite Hnow.
  - destruct (t' - start_time <? 10)%float; [|done].
    destruct (auth_message r') as [[o|]|e]; [done|done|].
    by destruct e.
Qed.

Lemma auth_wait_times_out start_time before now r after :
  (now - start_time <? 10)%float = false →
  Forall (λ p, indefinite p.2) before →
  auth_wait start_time (before ++ (now, r) :: after) = Some AuthTimeout.
Proof.
  intros Hnow Hbefore.
  induction Hbefore as [|[t' r'] before Hr _ IH]; simpl.
  - by rewrite Hnow.
  - destruct (t' - start_time <? 10)%float; [|done].
    by destruct (auth_message_indefinite r' Hr) as [-> | ->].
Qed.

Lemma auth_message_no_success r :
  is_auth_success r = false → auth_message r ≠ Ok (Some AuthSuccess).
Proof.
  destruct r as [e| |data]; try done. unfold auth_message. simpl.
  destruct (py_getitem data "type") as [ty|]; [|done]. simpl. intros ->.
  destruct (is_str ty "error"); [|done].
  by destruct (py_getitem data "message").
Qed.

Lemma auth_wait_fails start_time before now r after :
  (now - start_time <? 10)%float = false →
  Forall (λ p, is_auth_success p.2 = false) before →
  ∃ o, auth_wait start_time (before ++ (now, r) :: after) = Some o ∧
       o ≠ AuthSuccess.
Proof.
  intros Hnow Hbefore.
  induction Hbefore as [|[t' r'] before Hr _ IH]; simpl.
  - rewrite Hnow. by eexists.
  - destruct (t' - start_time <? 10)%float; [|by eexists].
    apply auth_message_no_success in Hr. simpl in Hr.
    destruct (auth_message r') as [[o|]|e]; [|done|].
    + exists o. split; [done|]. by intros ->.
    + destruct e; try done; by eexists.
Qed.

Lemma auth_message_abrupt r e : abrupt r e → auth_message r = Raise e.
Proof.
  intros [_ [-> | [[-> ->] | (data & -> & Hty)]]]; [done|done|].
  unfold auth_message. by rewrite Hty.
Qed.

(** A round inside the window that leaves through the catch-all ends the
    loop there. *)
Lemma auth_wait_abrupt start_time quiet now r e rest :
  Forall (λ p, (p.1 - start_time <? 10)%float = true ∧ indefinite p.2) quiet →
  (now - start_time <? 10)%float = true →
  abrupt r e →
  auth_wait start_time (quiet ++ (now, r) :: rest) = Some (AuthException e).
Proof.
  intros Hquiet Hnow Hr.
  induction Hquiet as [|[t' r'] quiet [Ht Hr'] _ IH]; cbn [app auth_wait].
  - rewrite Hnow, (auth_message_abrupt r e Hr).
    destruct Hr as [Hne _]. by destruct e.
  - simpl in Ht. rewrite Ht.
    by destruct (auth_message_indefinite r' Hr') as [-> | ->].
Qed.

(** C6. Let the authentication request be sent and let the clock leave the
    10-second window at some round of the polling loop.  Then
    [authenticate] returns, whatever arrived before.  If no [auth_success]
    arrived it returns [False] and the client is not authenticated.  It
    returns through the timeout exit if every earlier round was a receive
    timeout or a message whose [type] is neither [auth_success] nor
    [error].  But a round inside the window that brings a transport
    exception other than the receive timeout, an undecodable payload or a
    payload without a [type] ends the call there through the catch-all:
    the window is not waited out and the outcome is not the timeout. *)
Theorem authenticate_times_out
    (c : MoverisClient) (start_time : float)
    (before : list (float * recv_result)) (now : float) (r : recv_result)
    (after : list (float * recv_result)) :
  is_Some (websocket c) →
  (now - start_time <? 10)%float = false →
  let out := authenticate c (Ok ()) start_time (before ++ (now, r) :: after) in
  is_Some (value_of out) ∧
  (Forall (λ p, is_auth_success p.2 = false) before →
   ∃ o, value_of out = Some o ∧ auth_returns o = false ∧ state_of out = c) ∧
  (Forall (λ p, indefinite p.2) before →
   value_of out = Some AuthTimeout ∧ state_of out = c) ∧
  (∀ quiet t' r' e rest,
     before = quiet ++ (t', r') :: rest →
     Forall (λ p, (p.1 - start_time <? 10)%float = true ∧ indefinite p.2)
       quiet →
     (t' - start_time <? 10)%float = true →
     abrupt r' e →
     value_of out = Some (AuthException e) ∧ state_of out = c).
Proof.
  intros [w Hw] Hnow. simpl. unfold authenticate. rewrite Hw.
  split; [|split; [|split]].
  - destruct (auth_wait_terminates start_time before now r after Hnow) as [o ->].
    by destruct o.
  - intros Hbefore.
    destruct (auth_wait_fails start_time before now r after Hnow Hbefore)
      as (o & -> & Ho).
    exists o. by destruct o.
  - intros Hbefore. by rewrite auth_wait_times_out.
  - intros quiet t' r' e rest -> Hquiet Ht' Hr'.
    rewrite <-app_assoc. cbn [app].
    by rewrite (auth_wait_abrupt start_time quiet t' r' e _ Hquiet Ht' Hr').
Qed.

(** ** [disconnect] twice *)

Lemma disconnect_state c now :
  state_of (disconnect c now)
    = set_websocket None (set_camera None (set_is_streaming false c)).
Proof.
  unfold disconnect, state_of. destruct c as [??????????????]. simpl.
  by destruct camera0, websocket0.
Qed.

Lemma disconnect_effects c now :
  effects_of (disconnect c now)
    = (if camera c is Some _ then [CameraRelease] else []) ++
      (if websocket c is Some _ then [WsClose] else []).
Proof.
  unfold disconnect, effects_of. destruct c as [??????????????]. simpl.
  by destruct camera0, websocket0.
Qed.

Lemma disconnect_value c now :
  nonzero_session c now → value_of (disconnect c now) = Ok ().
Proof.
  intros Hn. unfold disconnect, value_of.
  destruct c as [??????????????]. unfold nonzero_session in Hn. simpl in *.
  destruct camera0, websocket0; simpl;
    (destruct connection_start0 as [t0|]; [|done]);
    destruct (Hn t0 eq_refl) as [Hz Hf];
    destruct (float_truthy t0); try done;
    unfold py_int_truediv_float;
    destruct (float_of_int frame_count0); try done; simpl; by rewrite Hz.
Qed.

Lemma disconnect_nonzero_session c t1 t2 :
  nonzero_session c t2 → nonzero_session (state_of (disconnect c t1)) t2.
Proof. intros Hn. by rewrite disconnect_state. Qed.

Lemma disconnect_again c t1 t2 :
  state_of (disconnect (state_of (disconnect c t1)) t2)
    = state_of (disconnect c t1) ∧
  effects_of (disconnect (state_of (disconnect c t1)) t2) = [].
Proof.
  rewrite disconnect_effects, !disconnect_state. by destruct c.
Qed.

Lemma disconnect_nothing_open c now :
  websocket c = None → camera c = None →
  state_of (disconnect c now) = set_is_streaming false c ∧
  effects_of (disconnect c now) = [].
Proof.
  intros Hw Hc. rewrite disconnect_state, disconnect_effects, Hw, Hc.
  split; [|done]. destruct c as [??????????????]. simpl in *. by subst.
Qed.

Lemma disconnect_never_connected c now :
  connection_start c = None → value_of (disconnect c now) = Ok ().
Proof. intros Hs. apply disconnect_value. intros t0. by rewrite Hs. Qed.

(** The statistics line at a session of length zero. *)
Lemma disconnect_zero_duration c t0 now :
  connection_start c = Some t0 →
  float_truthy t0 = true →
  (now - t0 =? 0)%float = true →
  succeeded (float_of_int (frame_count c)) = true →
  value_of (disconnect c now) = Raise ZeroDivisionError.
Proof.
  intros Hs Ht Hd Hf. unfold disconnect, value_of.
  destruct (camera (set_is_streaming false c));
    destruct (websocket _); simpl; rewrite Hs, Ht;
    unfold py_int_truediv_float;
    destruct (float_of_int (frame_count c)); try done; simpl; by rewrite Hd.
Qed.

(** C7. [disconnect] is not safe to call twice on every client.  On a
    client that connected, [connection_start] stays set for good, so each
    call computes the session statistics anew; where the clock of a call
    reads the connection time, that call raises [ZeroDivisionError], the
    first and the second alike.  What the second call does keep is the
    state the first one left, and it releases and closes nothing. *)
Theorem disconnect_twice_faults
    (c : MoverisClient) (t0 t1 t2 : float) :
  connection_start c = Some t0 →
  float_truthy t0 = true →
  (t1 - t0 =? 0)%float = true →
  (t2 - t0 =? 0)%float = true →
  succeeded (float_of_int (frame_count c)) = true →
  let first := disconnect c t1 in
  let second := disconnect (state_of first) t2 in
  value_of first = Raise ZeroDivisionError ∧
  value_of second = Raise ZeroDivisionError ∧
  state_of second = state_of first ∧
  effects_of second = [].
Proof.
  intros Hs Ht H1 H2 Hf. simpl.
  split; [by eapply disconnect_zero_duration|].
  split; [|apply disconnect_again].
  apply (disconnect_zero_duration _ t0); rewrite ?disconnect_state; done.
Qed.

(** X20. A second [disconnect] in a row does nothing: it returns the state
    the first call left and neither releases the camera nor closes the
    transport again, so each happens at most once over the two calls.  On a
    client on which nothing was ever opened both calls only clear the
    streaming flag and neither faults.  In general a call does not fault
    where the session statistics can be computed, that is, where the session
    has a length other than zero at that call. *)
Theorem disconnect_idempotent (c : MoverisClient) (t1 t2 : float) :
  let first := disconnect c t1 in
  let second := disconnect (state_of first) t2 in
  state_of second = state_of first ∧
  effects_of second = [] ∧
  releases (effects_of first ++ effects_of second) ≤ 1 ∧
  closes (effects_of first ++ effects_of second) ≤ 1 ∧
  (websocket c = None → camera c = None → connection_start c = None →
   first = (set_is_streaming false c, [], Ok ()) ∧
   second = (set_is_streaming false c, [], Ok ())) ∧
  (nonzero_session c t1 → value_of first = Ok ()) ∧
  (nonzero_session c t2 → value_of second = Ok ()).
Proof.
  intros first second.
  destruct (disconnect_again c t1 t2) as [Hstate Heffects].
  fold first in Hstate, Heffects. fold second in Hstate, Heffects.
  split; [done|]. split; [done|]. rewrite Heffects, app_nil_r.
  split; [|split; [|split; [|split]]].
  - unfold first, releases. rewrite disconnect_effects.
    destruct (camera c), (websocket c); simpl; lia.
  - unfold first, closes. rewrite disconnect_effects.
    destruct (camera c), (websocket c); simpl; lia.
  - intros Hw Hc Hs.
    destruct (disconnect_nothing_open c t1 Hw Hc) as [Hs1 He1].
    pose proof (disconnect_never_connected c t1 Hs) as Hv1.
    assert (value_of second = Ok ()) as Hv2.
    { apply disconnect_never_connected. unfold first.
      by rewrite disconnect_state. }
    fold first in Hs1, He1, Hv1. rewrite Hs1 in Hstate.
    destruct first as [[s1 e1] v1], second as [[s2 e2] v2].
    unfold state_of, effects_of, value_of in *. simpl in *. by subst.
  - apply disconnect_value.
  - intros Hn. by apply disconnect_value, disconnect_nonzero_session.
Qed.

(** * Further properties *)

(** ** What the loops leave alone *)

Lemma same_setup_refl c : same_setup c c.
Proof. by repeat split. Qed.

Lemma same_setup_trans c1 c2 c3 :
  same_setup c1 c2 → same_setup c2 c3 → same_setup c1 c3.
Proof.
  unfold same_setup. intros (?&?&?&?&?&?&?&?) (?&?&?&?&?&?&?&?).
  repeat split; congruence.
Qed.

Lemma send_frame_same_setup c frame_data t tx :
  same_setup c (state_of (send_frame c frame_data t tx)).
Proof.
  unfold send_frame. destruct (websocket c) eqn:Hw; [|apply same_setup_refl].
  destruct (is_authenticated c) eqn:Ha; [|apply same_setup_refl].
  by destruct tx.
Qed.

Lemma send_frame_effects c frame_data t tx :
  Forall (λ e, is_frame e = true) (effects_of (send_frame c frame_data t tx)).
Proof.
  unfold send_frame. destruct (websocket c); [|constructor].
  destruct (is_authenticated c); [|constructor].
  destruct tx; by repeat constructor.
Qed.

Lemma stream_frames_iter_same_setup c interval last k :
  same_setup c (stream_frames_iter c interval last k).1.1.
Proof.
  unfold stream_frames_iter.
  destruct (capture_frame c (camera_read k)) as [frame_data|].
  - destruct (str_truthy frame_data).
    + pose proof (send_frame_same_setup c frame_data (send_time k) (tx k)) as Hs.
      destruct (send_frame c frame_data (send_time k) (tx k)) as [[c' sent] b].
      by destruct (pacing k) as [[now after]|].
    + destruct (pacing k) as [[now after]|]; apply same_setup_refl.
  - destruct (pacing k) as [[now after]|]; apply same_setup_refl.
Qed.

Lemma calculate_ack_latency_same_setup c frame_num t c' o :
  calculate_ack_latency c frame_num t = Ok (c', o) → same_setup c c'.
Proof.
  unfold calculate_ack_latency.
  destruct (py_int_key frame_num) as [key|]; [|done]. simpl.
  destruct (key ≫= _) as [[k sent]|]; intros [= <- <-];
    by repeat split.
Qed.

Lemma handle_message_same_setup c data t :
  same_setup c (handle_message c data t).1.
Proof.
  unfold handle_message.
  destruct (py_get data "type" JNull) as [ty|]; [|apply same_setup_refl].
  repeat case_match; try apply same_setup_refl; try (by repeat split).
  subst. unfold on_frame_received.
  destruct (py_get data "frame_number" JNull) as [frame_num|];
    [|apply same_setup_refl].
  destruct (calculate_ack_latency c frame_num t) as [[c' o]|] eqn:Hc;
    [|apply same_setup_refl].
  apply calculate_ack_latency_same_setup in Hc.
  destruct (py_get data "total_frames" (JInt 0)); [|done].
  by destruct (py_mod_50 frame_num).
Qed.

Lemma handle_messages_iter_same_setup c r t :
  same_setup c (handle_messages_iter c r t).1.
Proof.
  unfold handle_messages_iter.
  destruct r as [e| |data];
    [destruct e; apply same_setup_refl|apply same_setup_refl|].
  pose proof (handle_message_same_setup c data t) as H.
  destruct (handle_message c data t) as [c' f].
  destruct f as [| |e]; [done|done|by destruct e].
Qed.

Lemma handle_messages_late_same_setup c late :
  same_setup c (handle_messages_late c late).
Proof.
  revert c. induction late as [|[r t] late IH]; intros c; simpl;
    [apply same_setup_refl|].
  destruct (_ && _); [|apply same_setup_refl].
  pose proof (handle_messages_iter_same_setup c r t) as H.
  destruct (handle_messages_iter c r t) as [c' f].
  destruct f; [|done..].
  eapply same_setup_trans; [exact H|apply IH].
Qed.

(** What a round of either loop adds to the trace. *)
Lemma step_trace σ ev :
  ∃ effs, trace (step σ ev) = trace σ ++ effs ∧
          Forall (λ e, is_frame e = true ∨ ∃ s, e = Sleep s) effs ∧
          Forall (λ e, sleeps_positive e = true) effs.
Proof.
  destruct ev as [k|r t]; simpl.
  - unfold produce. destruct (producer σ);
      [|exists []; by rewrite app_nil_r].
    destruct (is_streaming (client σ));
      [|exists []; simpl; by rewrite app_nil_r].
    unfold stream_frames_iter.
    set (c := client σ).
    assert (∃ c' sent,
              match capture_frame c (camera_read k) with
              | Some frame_data =>
                  if str_truthy frame_data
                  then let '(c0, sent, _) :=
                         send_frame c frame_data (send_time k) (tx k) in
                       (c0, sent)
                  else (c, [])
              | None => (c, [])
              end = (c', sent) ∧ Forall (λ e, is_frame e = true) sent)
      as (c' & sent & -> & Hsent).
    { destruct (capture_frame c (camera_read k)) as [frame_data|];
        [|by exists c, []].
      destruct (str_truthy frame_data); [|by exists c, []].
      pose proof (send_frame_effects c frame_data (send_time k) (tx k)) as H.
      destruct (send_frame c frame_data (send_time k) (tx k)) as [[c' sent] b].
      by exists c', sent. }
    assert (Forall (λ e, sleeps_positive e = true) sent) as Hpos.
    { eapply Forall_impl; [exact Hsent|]. by intros [| | |]. }
    assert (Forall (λ e, is_frame e = true ∨ ∃ s, e = Sleep s) sent) as Hkind.
    { eapply Forall_impl; [exact Hsent|]. naive_solver. }
    destruct (pacing k) as [[now after]|]; simpl.
    + eexists. split; [done|].
      destruct (0 <? py_max_0 (frame_interval σ - (now - last_frame_time σ)))%float
        eqn:Hs.
      * split; apply Forall_app; split; try done;
          repeat constructor; [by eauto|by simpl].
      * rewrite app_nil_r. done.
    + eexists. split; [done|].
      split; apply Forall_app; split; try done;
        repeat constructor; by eauto.
  - exists []. rewrite app_nil_r. split; [|done]. unfold consume.
    destruct (consumer σ); [|done].
    destruct (_ && _); [|done].
    by destruct (handle_messages_iter _ _ _) as [c f].
Qed.

Lemma step_same_setup σ ev : same_setup (client σ) (client (step σ ev)).
Proof.
  destruct ev as [k|r t]; simpl.
  - unfold produce. destruct (producer σ); [|apply same_setup_refl].
    destruct (is_streaming (client σ)); [|apply same_setup_refl].
    pose proof (stream_frames_iter_same_setup (client σ) (frame_interval σ)
                  (last_frame_time σ) k) as H.
    by destruct (stream_frames_iter _ _ _ _) as [[c last] effs].
  - unfold consume. destruct (consumer σ); [|apply same_setup_refl].
    destruct (_ && _); [|apply same_setup_refl].
    pose proof (handle_messages_iter_same_setup (client σ) r t) as H.
    by destruct (handle_messages_iter _ _ _) as [c f].
Qed.

Lemma run_trace σ evs :
  ∃ effs, trace (run σ evs) = trace σ ++ effs ∧
          Forall (λ e, is_frame e = true ∨ ∃ s, e = Sleep s) effs ∧
          Forall (λ e, sleeps_positive e = true) effs.
Proof.
  unfold run. revert σ. induction evs as [|ev evs IH]; intros σ; simpl.
  - exists []. by rewrite app_nil_r.
  - destruct (step_trace σ ev) as (effs1 & H1 & Hk1 & Hp1).
    destruct (IH (step σ ev)) as (effs2 & H2 & Hk2 & Hp2).
    exists (effs1 ++ effs2). rewrite H2, H1, <-app_assoc.
    split; [done|]. split; apply Forall_app; by split.
Qed.

Lemma run_same_setup σ evs : same_setup (client σ) (client (run σ evs)).
Proof.
  unfold run. revert σ. induction evs as [|ev evs IH]; intros σ; simpl.
  - apply same_setup_refl.
  - eapply same_setup_trans; [apply step_same_setup|apply IH].
Qed.

Lemma frames_and_sleeps_keep_resources effs :
  Forall (λ e, is_frame e = true ∨ ∃ s, e = Sleep s) effs →
  closes effs = 0 ∧ releases effs = 0.
Proof.
  unfold closes, releases. induction 1 as [|e effs He _ [IH1 IH2]]; [done|].
  destruct He as [He | [s ->]]; [destruct e|]; simpl in *; done.
Qed.

(** X1. While the two loops run, however their rounds interleave, the
    transport, the camera, the authentication flag, the connection time
    and the configuration stay as they were, and the loops neither close
    the transport nor release the camera: only [disconnect] does. *)
Theorem loops_keep_resources (σ : session) (evs : list event) :
  same_setup (client σ) (client (run σ evs)) ∧
  closes (trace (run σ evs)) = closes (trace σ) ∧
  releases (trace (run σ evs)) = releases (trace σ).
Proof.
  split; [apply run_same_setup|].
  destruct (run_trace σ evs) as (effs & -> & Hkind & _).
  destruct (frames_and_sleeps_keep_resources effs Hkind) as [Hc Hr].
  unfold closes, releases in *.
  rewrite !List.filter_app, !length_app. lia.
Qed.

(** X2. The producer never sleeps for a time that is zero, negative or
    not a number: every [asyncio.sleep] of a run, the pacing sleep and the
    pause after a fault alike, is for a positive time. *)
Theorem loops_sleep_positive
    (c : MoverisClient) (interval now : float) (evs : list event) :
  Forall (λ e, sleeps_positive e = true)
    (trace (run (gather c interval now) evs)).
Proof.
  destruct (run_trace (gather c interval now) evs) as (effs & -> & _ & Hpos).
  done.
Qed.

(** ** Sequence numbers in flight *)

Lemma send_frame_keys_in_range c frame_data t tx :
  keys_in_range c → keys_in_range (state_of (send_frame c frame_data t tx)).
Proof.
  intros [Hfc Hkeys].
  destruct (send_frame_cases c frame_data t tx)
    as [[-> _] | (Hw & Ha & Hcount & _)]; [done|].
  destruct (send_frame_passes c frame_data t tx Hw Ha) as [Hst _].
  unfold keys_in_range. rewrite Hcount, Hst. split; [lia|].
  intros k Hk. apply (subseteq_dom _ _ (clean_up_subseteq _)) in Hk.
  rewrite dom_insert in Hk. apply elem_of_union in Hk as [Hk | Hk].
  - apply elem_of_singleton in Hk. lia.
  - apply Hkeys in Hk. lia.
Qed.

Lemma keys_in_range_shrink c c' :
  keys_in_range c → frame_count c' = frame_count c →
  send_times c' ⊆ send_times c → keys_in_range c'.
Proof.
  intros [Hfc Hkeys] Hcount Hsub. unfold keys_in_range. rewrite Hcount.
  split; [done|]. intros k Hk. apply Hkeys. by eapply subseteq_dom.
Qed.

Lemma step_keys_in_range σ ev :
  keys_in_range (client σ) → keys_in_range (client (step σ ev)).
Proof.
  intros Hσ. destruct ev as [k|r t]; simpl.
  - unfold produce. destruct (producer σ); [|done].
    destruct (is_streaming (client σ)); [|done].
    unfold stream_frames_iter.
    destruct (capture_frame (client σ) (camera_read k)) as [frame_data|].
    + destruct (str_truthy frame_data).
      * pose proof (send_frame_keys_in_range (client σ) frame_data
                      (send_time k) (tx k) Hσ) as H.
        destruct (send_frame _ _ _ _) as [[c' sent] b].
        by destruct (pacing k) as [[now after]|].
      * by destruct (pacing k) as [[now after]|].
    + by destruct (pacing k) as [[now after]|].
  - unfold consume. destruct (consumer σ); [|done].
    destruct (_ && _); [|done].
    pose proof (handle_messages_iter_send_times (client σ) r t) as Hsub.
    pose proof (handle_messages_iter_frame_count (client σ) r t) as Hcount.
    destruct (handle_messages_iter _ _ _) as [c f]. simpl in *.
    by eapply keys_in_range_shrink.
Qed.

Lemma run_keys_in_range σ evs :
  keys_in_range (client σ) → keys_in_range (client (run σ evs)).
Proof.
  unfold run. revert σ. induction evs as [|ev evs IH]; intros σ Hσ; simpl;
    [done|].
  by apply IH, step_keys_in_range.
Qed.

Lemma clean_up_keeps_largest (m : gmap Z float) (n : Z) (t : float) :
  m !! n = Some t → (∀ k, k ∈ dom m → (k ≤ n)%Z) →
  clean_up m !! n = Some t.
Proof.
  intros Hn Hmax.
  assert (n ∈ dom (clean_up m)) as Hin.
  { destruct (decide (n ∈ dom (clean_up m))) as [|Hout]; [done|exfalso].
    assert (n ∈ old_keys m) as Hold.
    { apply (elem_of_list_to_set (C:=gset Z)). rewrite old_keys_evicted.
      apply elem_of_difference. split; [|done]. apply elem_of_dom. by eexists. }
    assert (size (clean_up m) ≠ 0) as Hsize.
    { rewrite clean_up_size.
      assert (size m ≠ 0); [|lia].
      apply map_size_non_empty_iff. intros ->. by rewrite lookup_empty in Hn. }
    apply map_size_ne_0_lookup in Hsize as (r & v & Hr).
    assert (r ∈ dom (clean_up m)) as Hrd by (apply elem_of_dom; by eexists).
    pose proof (old_keys_smallest m n r Hold Hrd) as Hlt.
    apply (subseteq_dom _ _ (clean_up_subseteq m)) in Hrd.
    apply Hmax in Hrd. lia. }
  apply elem_of_dom in Hin as [v Hv].
  pose proof (lookup_weaken _ _ _ _ Hv (clean_up_subseteq m)) as Hm.
  congruence.
Qed.

(** X3. The keys of [send_times] are always sequence numbers the producer
    has already assigned: if they lie between 1 and [frame_count] when the
    loops start, they do so after any interleaving of rounds. *)
Theorem pending_keys_in_range (σ : session) (evs : list event) :
  keys_in_range (client σ) →
  keys_in_range (client (run σ evs)).
Proof. apply run_keys_in_range. Qed.

(** X4. The frame just sent is in flight: when the pending keys are in
    range and [send_frame] gets past its guard, [send_times] holds the new
    sequence number with the timestamp of the call, whatever the cap
    evicted, and the one message handed to the transport carries the same
    number and timestamp. *)
Theorem send_frame_records_newest
    (c : MoverisClient) (frame_data : string) (t : float) (tx : result unit) :
  keys_in_range c →
  is_Some (websocket c) → is_authenticated c = true →
  let out := send_frame c frame_data t tx in
  let n := frame_count (state_of out) in
  n = (frame_count c + 1)%Z ∧
  send_times (state_of out) !! n = Some t ∧
  effects_of out = [WsSend (frame_message n frame_data t) (succeeded tx)].
Proof.
  intros [Hfc Hkeys] Hw Ha. simpl.
  destruct (send_frame_passes c frame_data t tx Hw Ha) as [Hst Hcount].
  rewrite Hcount, Hst. split; [done|]. split.
  - apply clean_up_keeps_largest; [apply lookup_insert_eq|].
    intros k Hk. rewrite dom_insert in Hk.
    apply elem_of_union in Hk as [Hk | Hk].
    + apply elem_of_singleton in Hk. lia.
    + apply Hkeys in Hk. lia.
  - unfold send_frame. destruct Hw as [w ->]. rewrite Ha. by destruct tx.
Qed.

(** ** Acknowledgements *)

(** A round on a message tagged [frame_received], in terms of the latency
    bookkeeping of lines 204-214. *)
Lemma frame_received_round c data t frame_num :
  py_get data "type" JNull = Ok (JStr "frame_received") →
  py_get data "frame_number" JNull = Ok frame_num →
  let out := handle_messages_iter c (RecvJson data) t in
  match calculate_ack_latency c frame_num t with
  | Ok (c1, _) =>
      send_times out.1 = send_times c1 ∧ ack_times out.1 = ack_times c1 ∧
      py_get data "total_frames" (JInt 0) = Ok (server_buffer out.1) ∧
      (py_mod_50 frame_num = Ok () → out.2 = Continue)
  | Raise _ => out.1 = c
  end.
Proof.
  intros Hty Hnum. simpl. unfold handle_messages_iter, handle_message.
  rewrite Hty. simpl. unfold on_frame_received. rewrite Hnum.
  destruct (calculate_ack_latency c frame_num t) as [[c1 o]|e];
    [|by destruct e].
  destruct data as [| | | | | |kv]; try done. simpl.
  destruct (py_mod_50 frame_num) as [[]|e]; [done|].
  by destruct e.
Qed.

Lemma pending_send_times c c' frame_num :
  send_times c' = send_times c → pending c' frame_num = pending c frame_num.
Proof. unfold pending. by intros ->. Qed.

Lemma calculate_ack_latency_clears c frame_num t c1 o :
  calculate_ack_latency c frame_num t = Ok (c1, o) →
  pending c1 frame_num = false.
Proof.
  unfold calculate_ack_latency, pending.
  destruct (py_int_key frame_num) as [[k|]|]; simpl; [|done..].
  destruct (send_times c !! k) as [sent|] eqn:Hk; simpl; intros [= <- <-].
  - simpl. by rewrite lookup_delete_eq.
  - by rewrite Hk.
Qed.

Lemma last_tail_snoc {A} (l : list A) (x : A) :
  l ≠ [] → last (tail (l ++ [x])) = Some x.
Proof.
  destruct l as [|y l]; [done|]. intros _. simpl. apply last_snoc.
Qed.

(** X5. An acknowledgement of a frame in flight: the round computes
    [(receive_time - send_time) * 1000], makes it the newest latency
    sample, removes that frame and no other from [send_times], overwrites
    [server_buffer] with [total_frames] (0 when the message has none) and
    carries on. *)
Theorem ack_of_pending_frame
    (c : MoverisClient) (data : json) (n : Z) (sent receive_time : float) :
  py_get data "type" JNull = Ok (JStr "frame_received") →
  py_get data "frame_number" JNull = Ok (JInt n) →
  send_times c !! n = Some sent →
  let out := handle_messages_iter c (RecvJson data) receive_time in
  out.2 = Continue ∧
  last (ack_times out.1) = Some ((receive_time - sent) * 1000)%float ∧
  send_times out.1 = delete n (send_times c) ∧
  py_get data "total_frames" (JInt 0) = Ok (server_buffer out.1).
Proof.
  intros Hty Hnum Hn.
  pose proof (frame_received_round c data receive_time (JInt n) Hty Hnum) as H.
  simpl in *. unfold calculate_ack_latency in H. simpl in H.
  rewrite Hn in H. simpl in H. destruct H as (Hst & Hacks & Hbuf & Hflow).
  split; [by apply Hflow|]. split; [|done]. rewrite Hacks.
  case_decide as H50.
  - apply last_tail_snoc. intros Hnil. rewrite Hnil in H50. simpl in H50. lia.
  - apply last_snoc.
Qed.

(** X6. Acknowledgements count once: when the server repeats a
    [frame_received] message, the second copy changes neither the latency
    samples nor the frames in flight, whatever its [frame_number] is. *)
Theorem duplicate_ack_ignored
    (c : MoverisClient) (data : json) (t1 t2 : float) :
  py_get data "type" JNull = Ok (JStr "frame_received") →
  let c1 := (handle_messages_iter c (RecvJson data) t1).1 in
  let c2 := (handle_messages_iter c1 (RecvJson data) t2).1 in
  ack_times c2 = ack_times c1 ∧ send_times c2 = send_times c1.
Proof.
  intros Hty c1 c2.
  assert (∃ frame_num, py_get data "frame_number" JNull = Ok frame_num)
    as [frame_num Hnum].
  { destruct data; try done. by eexists. }
  assert (pending c1 frame_num = false) as Hp.
  { pose proof (frame_received_round c data t1 frame_num Hty Hnum) as H.
    simpl in H. fold c1 in H.
    pose proof (calculate_ack_latency_cases c frame_num t1) as Hcases.
    destruct (calculate_ack_latency c frame_num t1) as [[c' o]|] eqn:Hc.
    - destruct H as (Hst & _).
      rewrite (pending_send_times c' c1) by done.
      by eapply calculate_ack_latency_clears.
    - by rewrite H. }
  pose proof (frame_received_round c1 data t2 frame_num Hty Hnum) as H.
  simpl in H. fold c2 in H.
  pose proof (calculate_ack_latency_cases c1 frame_num t2) as Hcases.
  destruct (calculate_ack_latency c1 frame_num t2) as [[c' [latency|]]|].
  - destruct Hcases as [Hcases _]. congruence.
  - destruct Hcases as [-> _]. by destruct H as (-> & -> & _).
  - by rewrite H.
Qed.

(** ** How the loops end *)

Lemma stream_frames_iter_is_streaming c interval last k :
  is_streaming (stream_frames_iter c interval last k).1.1 = is_streaming c.
Proof.
  unfold stream_frames_iter.
  destruct (capture_frame c (camera_read k)) as [frame_data|].
  - destruct (str_truthy frame_data).
    + pose proof (send_frame_is_streaming c frame_data (send_time k) (tx k)) as Hs.
      destruct (send_frame c frame_data (send_time k) (tx k)) as [[c' sent] b].
      by destruct (pacing k) as [[now after]|].
    + by destruct (pacing k) as [[now after]|].
  - by destruct (pacing k) as [[now after]|].
Qed.

(** A round of the consumer that clears the flag handled [disconnect]. *)
Lemma handle_messages_iter_clears c r t :
  is_streaming c = true →
  is_streaming (handle_messages_iter c r t).1 = false →
  is_disconnect (Consume r t) = true.
Proof.
  intros Hc. unfold handle_messages_iter.
  destruct r as [e| |data]; [destruct e; simpl; congruence|simpl; congruence|].
  pose proof (handle_message_is_streaming c data t) as Hflag.
  pose proof (handle_message_break c data t) as Hbreak. simpl.
  destruct (is_str (msg_type data) "disconnect"); [done|].
  destruct (handle_message c data t) as [c' f].
  destruct f as [| |e]; [simpl in *; congruence|done|].
  destruct e; simpl in *; congruence.
Qed.

Lemma step_clears σ ev :
  is_streaming (client σ) = true →
  is_streaming (client (step σ ev)) = false →
  is_disconnect ev = true.
Proof.
  intros Hσ. destruct ev as [k|r t]; simpl.
  - unfold produce. destruct (producer σ); [|congruence].
    rewrite Hσ.
    pose proof (stream_frames_iter_is_streaming (client σ) (frame_interval σ)
                  (last_frame_time σ) k) as H.
    destruct (stream_frames_iter _ _ _ _) as [[c last] effs]. simpl in *.
    congruence.
  - unfold consume. destruct (consumer σ); [|congruence].
    rewrite Hσ. simpl.
    destruct (bool_decide _); [|simpl; congruence].
    pose proof (handle_messages_iter_clears (client σ) r t Hσ) as H.
    by destruct (handle_messages_iter _ _ _) as [c f].
Qed.

(** With the flag cleared a round only makes its loop return. *)
Lemma step_stopped σ ev :
  is_streaming (client σ) = false → client (step σ ev) = client σ.
Proof.
  intros Hσ. destruct ev as [k|r t]; simpl.
  - unfold produce. destruct (producer σ); [|done]. by rewrite Hσ.
  - unfold consume. destruct (consumer σ); [|done]. by rewrite Hσ.
Qed.

Lemma run_stopped σ evs :
  is_streaming (client σ) = false → client (run σ evs) = client σ.
Proof.
  unfold run. revert σ. induction evs as [|ev evs IH]; intros σ Hσ; simpl;
    [done|].
  rewrite IH; rewrite step_stopped; done.
Qed.

Lemma run_clears σ evs :
  is_streaming (client σ) = true →
  is_streaming (client (run σ evs)) = false →
  Exists (λ ev, is_disconnect ev = true) evs.
Proof.
  unfold run. revert σ. induction evs as [|ev evs IH]; intros σ Hσ; simpl.
  - congruence.
  - intros Hend.
    destruct (is_streaming (client (step σ ev))) eqn:Hstep.
    + apply Exists_cons_tl. by eapply IH.
    + apply Exists_cons_hd. by eapply step_clears.
Qed.

(** The producer returns only on a cleared flag, and the flag stays
    cleared. *)
Lemma step_producer_returned σ ev :
  (producer σ = Returned → is_streaming (client σ) = false) →
  producer (step σ ev) = Returned → is_streaming (client (step σ ev)) = false.
Proof.
  intros Hσ. destruct ev as [k|r t]; simpl.
  - unfold produce. destruct (producer σ); [|auto].
    destruct (is_streaming (client σ)) eqn:Hs; [|done].
    by destruct (stream_frames_iter _ _ _ _) as [[c last] effs].
  - intros Hp.
    assert (producer σ = Returned) as Hret.
    { revert Hp. unfold consume. destruct (consumer σ); [|done].
      by destruct (if _ && _ then _ else _). }
    pose proof (step_stopped σ (Consume r t) (Hσ Hret)) as H. simpl in H.
    rewrite H. auto.
Qed.

Lemma run_producer_returned σ evs :
  (producer σ = Returned → is_streaming (client σ) = false) →
  producer (run σ evs) = Returned → is_streaming (client (run σ evs)) = false.
Proof.
  unfold run. revert σ. induction evs as [|ev evs IH]; intros σ Hσ; simpl;
    [done|].
  apply IH. by apply step_producer_returned.
Qed.

(** X7. [stream_frames] ends only after the server said so: if the
    producer, running with the flag set, has returned after some rounds,
    then the flag is cleared and one of the rounds was the consumer
    handling a message tagged [disconnect]. *)
Theorem producer_returns_after_disconnect (σ : session) (evs : list event) :
  producer σ = Running →
  is_streaming (client σ) = true →
  producer (run σ evs) = Returned →
  is_streaming (client (run σ evs)) = false ∧
  Exists (λ ev, is_disconnect ev = true) evs.
Proof.
  intros Hp Hs Hend.
  assert (is_streaming (client (run σ evs)) = false) as Hflag.
  { apply run_producer_returned; [congruence|done]. }
  split; [done|]. by eapply run_clears.
Qed.

Lemma step_stranded σ ev :
  consumer σ = Returned → is_streaming (client σ) = true →
  consumer (step σ ev) = Returned ∧
  is_streaming (client (step σ ev)) = true ∧
  producer (step σ ev) = producer σ.
Proof.
  intros Hc Hs. destruct ev as [k|r t]; simpl.
  - unfold produce. destruct (producer σ) eqn:Hp; [|done]. rewrite Hs.
    pose proof (stream_frames_iter_is_streaming (client σ) (frame_interval σ)
                  (last_frame_time σ) k) as H.
    destruct (stream_frames_iter _ _ _ _) as [[c last] effs]. simpl in *.
    split; [done|]. split; congruence.
  - unfold consume. by rewrite Hc.
Qed.

Lemma run_stranded σ evs :
  consumer σ = Returned →
  is_streaming (client σ) = true →
  consumer (run σ evs) = Returned ∧
  is_streaming (client (run σ evs)) = true ∧
  producer (run σ evs) = producer σ.
Proof.
  unfold run. revert σ. induction evs as [|ev evs IH]; intros σ Hc Hs; simpl;
    [done|].
  destruct (step_stranded σ ev Hc Hs) as (Hc' & Hs' & Hp').
  destruct (IH (step σ ev) Hc' Hs') as (? & ? & ?).
  split; [done|]. split; [done|]. congruence.
Qed.

Lemma consume_fault σ r t e :
  consumer σ = Running → is_streaming (client σ) = true →
  is_Some (websocket (client σ)) →
  (handle_messages_iter (client σ) r t).2 = Fault e →
  consumer (consume σ r t) = Returned ∧
  is_streaming (client (consume σ r t)) = true ∧
  producer (consume σ r t) = producer σ.
Proof.
  intros Hc Hs [w Hw] Hf. unfold consume. rewrite Hc, Hs, Hw. simpl.
  pose proof (handle_messages_iter_is_streaming (client σ) r t) as H.
  destruct (handle_messages_iter _ _ _) as [c f]. simpl in *. subst f.
  split; [done|]. split; [congruence|done].
Qed.

(** X8. A fault in the consumer strands the session: the consumer returns
    with the streaming flag still set, and whatever rounds follow, the flag
    stays set and the producer keeps running, so [asyncio.gather] never
    completes. *)
Theorem consumer_fault_strands_producer
    (σ : session) (r : recv_result) (receive_time : float) (e : exn)
    (evs : list event) :
  consumer σ = Running → producer σ = Running →
  is_streaming (client σ) = true →
  is_Some (websocket (client σ)) →
  (handle_messages_iter (client σ) r receive_time).2 = Fault e →
  let σ' := run σ (Consume r receive_time :: evs) in
  consumer σ' = Returned ∧ producer σ' = Running ∧
  is_streaming (client σ') = true.
Proof.
  intros Hc Hp Hs Hw Hf. simpl.
  destruct (consume_fault σ r receive_time e Hc Hs Hw Hf) as (Hc' & Hs' & Hp').
  destruct (run_stranded (consume σ r receive_time) evs Hc' Hs')
    as (? & ? & ?).
  split; [done|]. split; [congruence|done].
Qed.

Lemma send_frame_server_buffer c frame_data t tx :
  server_buffer (state_of (send_frame c frame_data t tx)) = server_buffer c.
Proof.
  unfold send_frame. destruct (websocket c); [|done].
  destruct (is_authenticated c); [|done]. by destruct tx.
Qed.

Lemma stream_frames_iter_server_buffer c interval last k :
  server_buffer (stream_frames_iter c interval last k).1.1 = server_buffer c.
Proof.
  unfold stream_frames_iter.
  destruct (capture_frame c (camera_read k)) as [frame_data|].
  - destruct (str_truthy frame_data).
    + pose proof (send_frame_server_buffer c frame_data (send_time k) (tx k))
        as Hs.
      destruct (send_frame c frame_data (send_time k) (tx k)) as [[c' sent] b].
      by destruct (pacing k) as [[now after]|].
    + by destruct (pacing k) as [[now after]|].
  - by destruct (pacing k) as [[now after]|].
Qed.

(** X17. The two loops write different parts of the client.  A round of
    the producer leaves the latency samples, the backlog depth, the
    streaming flag and the consumer's status as they are; a round of the
    consumer leaves the frame counter, the trace, the producer's pacing
    clock and status as they are, and of [send_times] it only removes
    keys. *)
Theorem rounds_write_apart
    (σ : session) (k : tick) (r : recv_result) (receive_time : float) :
  let p := produce σ k in
  let q := consume σ r receive_time in
  (ack_times (client p) = ack_times (client σ) ∧
   server_buffer (client p) = server_buffer (client σ) ∧
   is_streaming (client p) = is_streaming (client σ) ∧
   consumer p = consumer σ) ∧
  (frame_count (client q) = frame_count (client σ) ∧
   send_times (client q) ⊆ send_times (client σ) ∧
   trace q = trace σ ∧
   last_frame_time q = last_frame_time σ ∧
   producer q = producer σ).
Proof.
  simpl. split.
  - unfold produce. destruct (producer σ); [|done].
    destruct (is_streaming (client σ)) eqn:Hs; [|done].
    pose proof (stream_frames_iter_ack_times (client σ) (frame_interval σ)
                  (last_frame_time σ) k) as Hacks.
    pose proof (stream_frames_iter_server_buffer (client σ) (frame_interval σ)
                  (last_frame_time σ) k) as Hbuf.
    pose proof (stream_frames_iter_is_streaming (client σ) (frame_interval σ)
                  (last_frame_time σ) k) as Hflag.
    destruct (stream_frames_iter _ _ _ _) as [[c last] effs]. simpl in *.
    split; [done|]. split; [done|]. split; [congruence|done].
  - unfold consume. destruct (consumer σ); [|done].
    destruct (_ && _); [|done].
    pose proof (handle_messages_iter_frame_count (client σ) r receive_time)
      as Hcount.
    pose proof (handle_messages_iter_send_times (client σ) r receive_time)
      as Hsub.
    by destruct (handle_messages_iter _ _ _) as [c f].
Qed.

(** With the flag cleared the rounds that follow change neither the client
    nor the trace, and a loop that has returned stays so. *)
Lemma step_after_stop σ ev :
  is_streaming (client σ) = false →
  client (step σ ev) = client σ ∧ trace (step σ ev) = trace σ ∧
  (consumer σ = Returned → consumer (step σ ev) = Returned) ∧
  (producer σ = Returned → producer (step σ ev) = Returned) ∧
  match ev with
  | Produce _ => producer (step σ ev) = Returned
  | Consume _ _ => consumer (step σ ev) = Returned
  end.
Proof.
  intros Hσ. destruct ev as [k|r t]; simpl.
  - unfold produce. destruct (producer σ) eqn:Hp; [|done]. by rewrite Hσ.
  - unfold consume. destruct (consumer σ) eqn:Hc; [|done]. by rewrite Hσ.
Qed.

Lemma run_after_stop σ evs :
  is_streaming (client σ) = false →
  client (run σ evs) = client σ ∧ trace (run σ evs) = trace σ ∧
  (consumer σ = Returned → consumer (run σ evs) = Returned) ∧
  (producer σ = Returned → producer (run σ evs) = Returned).
Proof.
  unfold run. revert σ. induction evs as [|ev evs IH]; intros σ Hσ; simpl;
    [done|].
  destruct (step_after_stop σ ev Hσ) as (Hcl & Htr & Hc & Hp & _).
  destruct (IH (step σ ev)) as (Hcl' & Htr' & Hc' & Hp'); [congruence|].
  split; [congruence|]. split; [congruence|]. split; auto.
Qed.

(** X19. The server's [disconnect] stops both loops and nothing more is
    sent: once the running consumer has handled a message tagged
    [disconnect], the producer returns at its next round, whatever rounds
    come in between or after, and the client and the trace are those of the
    moment the message arrived, but for the cleared flag. *)
Theorem disconnect_stops_both_loops
    (σ : session) (data : json) (receive_time : float)
    (evs : list event) (k : tick) (evs' : list event) :
  consumer σ = Running →
  is_streaming (client σ) = true →
  is_Some (websocket (client σ)) →
  is_str (msg_type data) "disconnect" = true →
  let σ' := run σ (Consume (RecvJson data) receive_time
                     :: evs ++ Produce k :: evs') in
  consumer σ' = Returned ∧ producer σ' = Returned ∧
  client σ' = set_is_streaming false (client σ) ∧
  trace σ' = trace σ.
Proof.
  intros Hc Hs [ws Hws] Hd. simpl.
  set (σ1 := consume σ (RecvJson data) receive_time).
  assert (client σ1 = set_is_streaming false (client σ) ∧
          consumer σ1 = Returned ∧ trace σ1 = trace σ) as (Hcl1 & Hc1 & Htr1).
  { unfold σ1, consume. rewrite Hc, Hs, Hws. simpl.
    pose proof (handle_message_break (client σ) data receive_time) as Hbreak.
    rewrite Hd in Hbreak. unfold handle_messages_iter. by rewrite Hbreak. }
  assert (is_streaming (client σ1) = false) as Hs1 by by rewrite Hcl1.
  change (foldl step σ1 (evs ++ Produce k :: evs'))
    with (run σ1 (evs ++ Produce k :: evs')).
  unfold run. rewrite foldl_app. simpl.
  set (σ2 := foldl step σ1 evs).
  destruct (run_after_stop σ1 evs Hs1) as (Hcl2 & Htr2 & Hc2 & _).
  unfold run in Hcl2, Htr2, Hc2. fold σ2 in Hcl2, Htr2, Hc2.
  assert (is_streaming (client σ2) = false) as Hs2 by congruence.
  destruct (step_after_stop σ2 (Produce k) Hs2) as (Hcl3 & Htr3 & Hc3 & _ & Hp3).
  cbn [step] in Hcl3, Htr3, Hc3, Hp3.
  assert (is_streaming (client (produce σ2 k)) = false) as Hs3 by congruence.
  destruct (run_after_stop (produce σ2 k) evs' Hs3) as (Hcl4 & Htr4 & Hc4 & Hp4).
  unfold run in Hcl4, Htr4, Hc4, Hp4.
  split; [auto|]. split; [auto|]. split; congruence.
Qed.

(** ** When [authenticate] succeeds *)

Lemma auth_message_success r :
  auth_message r = Ok (Some AuthSuccess) ↔ is_auth_success r = true.
Proof.
  destruct r as [e| |data]; try done. unfold auth_message. simpl.
  destruct (py_getitem data "type") as [ty|]; [|done]. simpl.
  destruct (is_str ty "auth_success"); [done|].
  destruct (is_str ty "error"); [|done].
  by destruct (py_getitem data "message").
Qed.

Lemma py_getitem_raises data k e :
  py_getitem data k = Raise e → e = KeyError ∨ e = TypeError.
Proof.
  destruct data as [| | | | | |kv]; simpl; try (intros [= <-]; by right).
  destruct (assoc k kv); [done|]. intros [= <-]. by left.
Qed.

Lemma auth_message_continues r :
  auth_message r = Ok None ∨ auth_message r = Raise TimeoutError →
  indefinite r.
Proof.
  destruct r as [e| |data]; simpl.
  - intros [|[= ->]]; [done|by left].
  - by intros [|].
  - intros H. right. unfold auth_message in H.
    destruct (py_getitem data "type") as [ty|e] eqn:Hty; simpl in H.
    + exists data, ty. split; [done|]. split; [done|].
      destruct (is_str ty "auth_success"); [by destruct H|]. split; [done|].
      destruct (is_str ty "error"); [|done].
      destruct (py_getitem data "message") as [|e] eqn:Hm; simpl in H;
        [by destruct H|].
      destruct H as [|[= ->]]; [done|].
      by destruct (py_getitem_raises _ _ _ Hm).
    + destruct H as [|[= ->]]; [done|].
      by destruct (py_getitem_raises _ _ _ Hty).
Qed.

Lemma auth_wait_succeeds start_time script :
  auth_wait start_time script = Some AuthSuccess ↔
  ∃ before now data after,
    script = before ++ (now, RecvJson data) :: after ∧
    Forall (λ p, (p.1 - start_time <? 10)%float = true ∧ indefinite p.2)
      before ∧
    (now - start_time <? 10)%float = true ∧
    is_auth_success (RecvJson data) = true.
Proof.
  split.
  - induction script as [|[now r] script IH]; simpl; [done|].
    destruct (now - start_time <? 10)%float eqn:Hnow; [|done].
    destruct (auth_message r) as [[o|]|e] eqn:Hr.
    + intros [= ->]. apply auth_message_success in Hr.
      destruct r as [| |data]; try done.
      by exists [], now, data, script.
    + intros (before & now' & data & after & -> & Hb & Hn & Hd)%IH.
      exists ((now, r) :: before), now', data, after.
      split; [done|]. split; [|done].
      apply Forall_cons. split; [|done]. split; [done|].
      apply auth_message_continues. by left.
    + assert (e = TimeoutError ∨ e ≠ TimeoutError) as [-> | Hne]
        by (destruct e; (by left) || (by right)).
      * intros (before & now' & data & after & -> & Hb & Hn & Hd)%IH.
        exists ((now, r) :: before), now', data, after.
        split; [done|]. split; [|done].
        apply Forall_cons. split; [|done]. split; [done|].
        apply auth_message_continues. by right.
      * by destruct e.
  - intros (before & now & data & after & -> & Hb & Hn & Hd).
    induction Hb as [|[t' r'] before [Ht Hr] _ IH]; cbn [app auth_wait].
    + rewrite Hn. apply auth_message_success in Hd. by rewrite Hd.
    + simpl in Ht. rewrite Ht.
      by destruct (auth_message_indefinite r' Hr) as [-> | ->].
Qed.

(** X9. [authenticate] returns [True] exactly when there is a transport,
    the request was sent, and a message whose [type] is [auth_success]
    arrives inside the 10-second window after rounds that were all inside
    the window and brought only receive timeouts or messages of some other
    type than [auth_success] and [error]. *)
Theorem authenticate_succeeds_iff
    (c : MoverisClient) (tx : result unit) (start_time : float)
    (script : list (float * recv_result)) :
  value_of (authenticate c tx start_time script) = Some AuthSuccess ↔
  is_Some (websocket c) ∧ succeeded tx = true ∧
  ∃ before now data after,
    script = before ++ (now, RecvJson data) :: after ∧
    Forall (λ p, (p.1 - start_time <? 10)%float = true ∧ indefinite p.2)
      before ∧
    (now - start_time <? 10)%float = true ∧
    is_auth_success (RecvJson data) = true.
Proof.
  rewrite <-auth_wait_succeeds. unfold authenticate, value_of.
  destruct (websocket c) as [w|]; simpl.
  - destruct tx as [[]|e]; simpl.
    + destruct (auth_wait start_time script) as [[]|]; simpl;
        split; try done; try (by intros (_ & _ & ?)); by eauto.
    + split; [done|]. by intros (_ & ? & _).
  - split; [done|]. by intros ([] & _).
Qed.

Lemma authenticate_cases c tx start_time script :
  let out := authenticate c tx start_time script in
  effects_of out
    = (if websocket c is Some _
       then [WsSend (auth_request c) (succeeded tx)] else []) ∧
  state_of out
    = (if value_of out is Some AuthSuccess
       then set_is_authenticated true c else c).
Proof.
  simpl. unfold authenticate, effects_of, state_of, value_of.
  destruct (websocket c) as [w|]; [|done].
  destruct tx as [[]|e]; [|done].
  by destruct (auth_wait start_time script) as [[]|].
Qed.

(** X10. [authenticate] hands the transport exactly one message when there
    is a transport, the request carrying [secret_key], and nothing when
    there is none; of the client it changes [is_authenticated] alone, and
    only when it returns [True]. *)
Theorem authenticate_sends_token_once
    (c : MoverisClient) (tx : result unit) (start_time : float)
    (script : list (float * recv_result)) :
  let out := authenticate c tx start_time script in
  effects_of out
    = (if websocket c is Some _
       then [WsSend (JDict [("type", JStr "auth");
                            ("token", JStr (secret_key c))]) (succeeded tx)]
       else []) ∧
  state_of out
    = (if value_of out is Some AuthSuccess
       then set_is_authenticated true c else c).
Proof. apply authenticate_cases. Qed.

(** ** [start_streaming] and [main] *)

Lemma closes_app effs1 effs2 :
  closes (effs1 ++ effs2) = closes effs1 + closes effs2.
Proof. unfold closes. by rewrite List.filter_app, length_app. Qed.

Lemma releases_app effs1 effs2 :
  releases (effs1 ++ effs2) = releases effs1 + releases effs2.
Proof. unfold releases. by rewrite List.filter_app, length_app. Qed.

(** The [finally] clause leaves nothing open and adds to the trace what
    [disconnect] does. *)
Lemma finally_disconnect_outcome c effs ret now :
  let out := finally_disconnect c effs ret now in
  state_of out
    = set_websocket None (set_camera None (set_is_streaming false c)) ∧
  effects_of out
    = effs ++ (if camera c is Some _ then [CameraRelease] else []) ++
              (if websocket c is Some _ then [WsClose] else []) ∧
  (value_of out = Ok ret ∨ ∃ e, value_of out = Raise e).
Proof.
  simpl. unfold finally_disconnect.
  pose proof (disconnect_state c now) as Hs.
  pose proof (disconnect_effects c now) as He.
  destruct (disconnect c now) as [[c' effs'] r].
  unfold state_of, effects_of, value_of in *. simpl in *. subst.
  split; [done|]. split; [done|]. destruct r as [[]|e]; simpl; eauto.
Qed.

Lemma abandon_streaming_outcome c effs w :
  let out := abandon_streaming c effs w in
  state_of out
    = set_websocket None (set_camera None (set_is_streaming false c)) ∧
  effects_of out
    = effs ++ (if camera c is Some _ then [CameraRelease] else []) ++
              (if websocket c is Some _ then [WsClose] else []) ∧
  (value_of out = Ok false ∨ ∃ e, value_of out = Raise e).
Proof.
  simpl. unfold abandon_streaming.
  pose proof (disconnect_state c (closing w)) as Hs.
  pose proof (disconnect_effects c (closing w)) as He.
  destruct (disconnect c (closing w)) as [[c1 effs1] r1].
  unfold state_of, effects_of in Hs, He. simpl in Hs, He. subst c1 effs1.
  destruct (finally_disconnect_outcome
              (set_websocket None (set_camera None (set_is_streaming false c)))
              (effs ++ (if camera c is Some _ then [CameraRelease] else []) ++
                 (if websocket c is Some _ then [WsClose] else []))
              false (closed_at w)) as (Hs & He & Hv).
  rewrite Hs, He. simpl. rewrite !app_nil_r.
  split; [by destruct c|]. split; [done|]. exact Hv.
Qed.

(** What is known of a call of [start_streaming] that returns, on a
    client that holds neither transport nor camera. *)
Lemma start_streaming_outcome c w out :
  websocket c = None → camera c = None →
  start_streaming c w = Some out →
  (websocket (state_of out) = None ∧ camera (state_of out) = None ∧
   is_streaming (state_of out) = false) ∧
  closes (effects_of out) = (if succeeded (opened w) then 1 else 0) ∧
  releases (effects_of out) ≤ 1 ∧
  (value_of out = Ok false →
   Forall (λ e, is_frame e = false) (effects_of out)) ∧
  (value_of out = Ok true →
   succeeded (opened w) = true ∧ releases (effects_of out) = 1 ∧
   Exists (λ ev, is_disconnect ev = true) (rounds w)) ∧
  (frame_rate c = 0%Z →
   value_of out ≠ Ok true ∧
   Forall (λ e, is_frame e = false) (effects_of out)).
Proof.
  intros Hw Hcam. unfold start_streaming.
  destruct (opened w) as [ws|e] eqn:Hopened; simpl.
  2:{ intros Hout; apply (inj Some) in Hout; subst out.
      destruct (finally_disconnect_outcome c [] false (closed_at w))
        as (Hs & He & Hv).
      rewrite Hs, He, Hw, Hcam. simpl.
      split; [done|]. split; [done|]. split; [unfold releases; simpl; lia|].
      split; [by constructor|].
      split; [intros Hr; destruct Hv as [Hv | [e' Hv]]; congruence|].
      intros _. split; [|by constructor].
      intros Hr; destruct Hv as [Hv | [e' Hv]]; congruence. }
  set (c1 := set_connection_start (Some (connected_at w))
               (set_websocket (Some ws) c)).
  destruct (authenticate_cases c1 (auth_tx w) (auth_start w) (auth_script w))
    as [Heffs Hstate].
  destruct (authenticate c1 (auth_tx w) (auth_start w) (auth_script w))
    as [[c2 effs] o].
  unfold effects_of, state_of, value_of in Heffs, Hstate.
  simpl in Heffs, Hstate. subst effs.
  destruct o as [o|]; [|done].
  assert (∀ c3, websocket c3 = Some ws → frame_rate c3 = frame_rate c →
            ∀ out, abandon_streaming c3
                     [WsSend (auth_request c1) (succeeded (auth_tx w))] w = out →
            (websocket (state_of out) = None ∧ camera (state_of out) = None ∧
             is_streaming (state_of out) = false) ∧
            closes (effects_of out) = 1 ∧
            releases (effects_of out) ≤ 1 ∧
            (value_of out = Ok false →
             Forall (λ e, is_frame e = false) (effects_of out)) ∧
            (value_of out = Ok true →
             true = true ∧ releases (effects_of out) = 1 ∧
             Exists (λ ev, is_disconnect ev = true) (rounds w)) ∧
            (frame_rate c = 0%Z →
             value_of out ≠ Ok true ∧
             Forall (λ e, is_frame e = false) (effects_of out))) as Habandon.
  { intros c3 Hw3 _ out' <-.
    destruct (abandon_streaming_outcome c3
                [WsSend (auth_request c1) (succeeded (auth_tx w))] w)
      as (Hs & He & Hv).
    rewrite Hs, He, Hw3. simpl.
    assert (Forall (λ e, is_frame e = false)
              (WsSend (auth_request c1) (succeeded (auth_tx w))
                 :: (if camera c3 is Some _ then [CameraRelease] else [])
                 ++ [WsClose])) as Hframes.
    { destruct (camera c3); by repeat constructor. }
    split; [done|].
    split; [unfold closes; by destruct (camera c3)|].
    split; [unfold releases; destruct (camera c3); simpl; lia|].
    split; [done|].
    split; [intros Hr; destruct Hv as [Hv | [e' Hv]]; congruence|].
    intros _. split; [|done].
    intros Hr; destruct Hv as [Hv | [e' Hv]]; congruence. }
  assert (websocket c2 = Some ws ∧ frame_rate c2 = frame_rate c)
    as [Hw2 Hrate2] by (subst c2; by destruct o).
  destruct (auth_returns o) eqn:Ho.
  2:{ intros Hout; apply (inj Some) in Hout; subst out.
      eapply Habandon; [..|reflexivity]; done. }
  destruct o; try done. subst c2.
  destruct (made w) as [cam|e]; simpl.
  2:{ intros Hout; apply (inj Some) in Hout; subst out.
      eapply Habandon; [..|reflexivity]; done. }
  destruct (isOpened cam) eqn:Hcamera.
  2:{ intros Hout; apply (inj Some) in Hout; subst out.
      eapply Habandon; [..|reflexivity]; done. }
  set (c3 := set_is_streaming true
               (set_camera (Some cam) (set_is_authenticated true c1))).
  destruct (stream_frames_start c3 (stream_start w))
    as [[interval last]|e] eqn:Hstart.
  - set (σ := run (gather c3 interval last) (rounds w)).
    destruct (producer σ) eqn:Hp; [done|].
    destruct (consumer σ) eqn:Hc; [done|].
    intros Hout; apply (inj Some) in Hout; subst out.
    destruct (finally_disconnect_outcome (client σ)
                (WsSend (auth_request c1) (succeeded (auth_tx w)) :: trace σ)
                true (closed_at w)) as (Hs & He & Hv).
    rewrite Hs, He.
    destruct (run_same_setup (gather c3 interval last) (rounds w))
      as (_ & _ & Hrate & _ & Hws & _ & _ & Hcm).
    fold σ in Hrate, Hws, Hcm. rewrite Hws, Hcm. simpl.
    destruct (run_trace (gather c3 interval last) (rounds w))
      as (effs & Htr & Hkind & _).
    fold σ in Htr. simpl in Htr. subst effs.
    destruct (frames_and_sleeps_keep_resources (trace σ) Hkind) as [Hcl Hrl].
    change (WsSend (auth_request c1) (succeeded (auth_tx w))
              :: trace σ ++ [CameraRelease; WsClose])
      with ([WsSend (auth_request c1) (succeeded (auth_tx w))]
              ++ trace σ ++ [CameraRelease; WsClose]).
    rewrite !closes_app, !releases_app, Hcl, Hrl.
    split; [done|]. split; [by unfold closes|].
    split; [unfold releases; simpl; lia|].
    split; [intros Hr; destruct Hv as [Hv | [e' Hv]]; congruence|].
    split.
    + intros _. split; [done|]. split; [by unfold releases|].
      assert (is_streaming (client σ) = false) as Hflag.
      { apply run_producer_returned; [by simpl|done]. }
      by eapply (run_clears (gather c3 interval last)).
    + intros Hzero. exfalso. revert Hstart.
      unfold stream_frames_start.
      replace (frame_rate c3) with 0%Z by (by rewrite <-Hzero; destruct c).
      by vm_compute.
  - intros Hout; apply (inj Some) in Hout; subst out.
    set (c4 := handle_messages_late c3 (late w)).
    destruct (handle_messages_late_same_setup c3 (late w))
      as (_ & _ & _ & _ & Hws & _ & _ & Hcm).
    fold c4 in Hws, Hcm.
    destruct (finally_disconnect_outcome c4
                [WsSend (auth_request c1) (succeeded (auth_tx w))]
                false (closed_at w)) as (Hs & He & Hv).
    rewrite Hs, He, Hws, Hcm. simpl.
    split; [done|]. split; [done|]. split; [unfold releases; simpl; lia|].
    split; [intros _; by repeat constructor|].
    split; [intros Hr; destruct Hv as [Hv | [e' Hv]]; congruence|].
    intros _. split; [|by repeat constructor].
    intros Hr; destruct Hv as [Hv | [e' Hv]]; congruence.
Qed.

(** [start_streaming] leaves the configuration of the client alone. *)
Lemma start_streaming_same_setup c w out :
  start_streaming c w = Some out →
  ws_url (state_of out) = ws_url c ∧ secret_key (state_of out) = secret_key c ∧
  frame_rate (state_of out) = frame_rate c ∧ quality (state_of out) = quality c.
Proof.
  unfold start_streaming.
  destruct (opened w) as [ws|e]; simpl.
  2:{ intros Hout; apply (inj Some) in Hout; subst out.
      destruct (finally_disconnect_outcome c [] false (closed_at w))
        as (-> & _). done. }
  set (c1 := set_connection_start (Some (connected_at w))
               (set_websocket (Some ws) c)).
  destruct (authenticate_cases c1 (auth_tx w) (auth_start w) (auth_script w))
    as [_ Hstate].
  destruct (authenticate c1 (auth_tx w) (auth_start w) (auth_script w))
    as [[c2 effs] o].
  unfold state_of, value_of in Hstate. simpl in Hstate.
  destruct o as [o|]; [|done].
  assert (ws_url c2 = ws_url c ∧ secret_key c2 = secret_key c ∧
          frame_rate c2 = frame_rate c ∧ quality c2 = quality c)
    as (Hurl & Hkey & Hrate & Hq) by (subst c2; by destruct o).
  assert (∀ c3 out',
            ws_url c3 = ws_url c2 → secret_key c3 = secret_key c2 →
            frame_rate c3 = frame_rate c2 → quality c3 = quality c2 →
            abandon_streaming c3 effs w = out' →
            ws_url (state_of out') = ws_url c ∧
            secret_key (state_of out') = secret_key c ∧
            frame_rate (state_of out') = frame_rate c ∧
            quality (state_of out') = quality c) as Habandon.
  { intros c3 out' ???? <-.
    destruct (abandon_streaming_outcome c3 effs w) as (-> & _).
    simpl. repeat split; congruence. }
  destruct (auth_returns o).
  2:{ intros Hout; apply (inj Some) in Hout; subst out.
      eapply Habandon; [..|reflexivity]; done. }
  destruct (made w) as [cam|e]; simpl.
  2:{ intros Hout; apply (inj Some) in Hout; subst out.
      eapply Habandon; [..|reflexivity]; done. }
  destruct (isOpened cam).
  2:{ intros Hout; apply (inj Some) in Hout; subst out.
      eapply Habandon; [..|reflexivity]; done. }
  set (c3 := set_is_streaming true (set_camera (Some cam) c2)).
  destruct (stream_frames_start c3 (stream_start w)) as [[interval last]|e].
  - set (σ := run (gather c3 interval last) (rounds w)).
    destruct (producer σ); [done|]. destruct (consumer σ); [done|].
    intros Hout; apply (inj Some) in Hout; subst out.
    destruct (finally_disconnect_outcome (client σ) (effs ++ trace σ)
                true (closed_at w)) as (-> & _).
    destruct (run_same_setup (gather c3 interval last) (rounds w))
      as (? & ? & ? & ? & _).
    fold σ in H, H0, H1, H2. simpl in *. repeat split; congruence.
  - intros Hout; apply (inj Some) in Hout; subst out.
    destruct (finally_disconnect_outcome (handle_messages_late c3 (late w))
                effs false (closed_at w)) as (-> & _).
    destruct (handle_messages_late_same_setup c3 (late w))
      as (? & ? & ? & ? & _).
    simpl in *. repeat split; congruence.
Qed.

(** X11. [start_streaming] leaves nothing open: on a client that holds
    neither transport nor camera, whenever the call returns or raises, the
    client again holds neither and is not streaming; the transport was
    closed exactly once if [connect] opened one and never otherwise, and
    the camera was released at most once. *)
Theorem start_streaming_cleans_up
    (c : MoverisClient) (w : world)
    (out : MoverisClient * list effect * result bool) :
  websocket c = None → camera c = None →
  start_streaming c w = Some out →
  websocket (state_of out) = None ∧ camera (state_of out) = None ∧
  is_streaming (state_of out) = false ∧
  closes (effects_of out) = (if succeeded (opened w) then 1 else 0) ∧
  releases (effects_of out) ≤ 1.
Proof.
  intros Hw Hcam Hout.
  destruct (start_streaming_outcome c w out Hw Hcam Hout)
    as ((? & ? & ?) & ? & ? & _).
  done.
Qed.

(** X12. [start_streaming] returns [True] only after the server ended the
    stream: the transport was opened, the camera was opened and then
    released, and one round of the consumer handled a message tagged
    [disconnect]. *)
Theorem start_streaming_true_after_disconnect
    (c : MoverisClient) (w : world)
    (out : MoverisClient * list effect * result bool) :
  websocket c = None → camera c = None →
  start_streaming c w = Some out →
  value_of out = Ok true →
  succeeded (opened w) = true ∧
  releases (effects_of out) = 1 ∧
  Exists (λ ev, is_disconnect ev = true) (rounds w).
Proof.
  intros Hw Hcam Hout Hv.
  destruct (start_streaming_outcome c w out Hw Hcam Hout)
    as (_ & _ & _ & _ & Htrue & _).
  by apply Htrue.
Qed.

(** X13. When [start_streaming] returns [False], whether the connection,
    the authentication, the camera or the start of the producer failed, no
    frame message was handed to the transport. *)
Theorem start_streaming_false_sends_no_frame
    (c : MoverisClient) (w : world)
    (out : MoverisClient * list effect * result bool) :
  websocket c = None → camera c = None →
  start_streaming c w = Some out →
  value_of out = Ok false →
  Forall (λ e, is_frame e = false) (effects_of out).
Proof.
  intros Hw Hcam Hout Hv.
  destruct (start_streaming_outcome c w out Hw Hcam Hout)
    as (_ & _ & _ & Hfalse & _).
  by apply Hfalse.
Qed.

(** X14. With a frame rate of 0, [1.0 / self.frame_rate] raises before the
    producer's loop: [start_streaming] goes through its whole setup, never
    returns [True] and never sends a frame. *)
Theorem start_streaming_zero_frame_rate
    (c : MoverisClient) (w : world)
    (out : MoverisClient * list effect * result bool) :
  websocket c = None → camera c = None →
  frame_rate c = 0%Z →
  start_streaming c w = Some out →
  value_of out ≠ Ok true ∧
  Forall (λ e, is_frame e = false) (effects_of out).
Proof.
  intros Hw Hcam Hrate Hout.
  destruct (start_streaming_outcome c w out Hw Hcam Hout)
    as (_ & _ & _ & _ & _ & Hzero).
  by apply Hzero.
Qed.

(** X15. Over a whole run of [main], with its second [disconnect] in
    [finally], the transport is closed at most once and the camera released
    at most once.  A client is made exactly when there is a secret key and
    both prompts parse, and the client that is left holds neither transport
    nor camera.  Without a secret key [main] returns at once; with a prompt
    that does not parse it raises what [int] raised; either way nothing is
    sent, closed or released. *)
Theorem main_releases_once
    (SECRET_KEY : string) (FRAME_RATE QUALITY : result Z)
    (w : world) (final : float)
    (out : option MoverisClient * list effect * result unit) :
  main SECRET_KEY FRAME_RATE QUALITY w final = Some out →
  closes out.1.2 ≤ 1 ∧ releases out.1.2 ≤ 1 ∧
  if str_truthy SECRET_KEY
  then match FRAME_RATE, QUALITY with
       | Ok rate, Ok q =>
           ∃ c, out.1.1 = Some c ∧
                ws_url c = WS_URL ∧ secret_key c = SECRET_KEY ∧
                frame_rate c = rate ∧ quality c = q ∧
                websocket c = None ∧ camera c = None ∧
                is_streaming c = false
       | Raise e, _ | Ok _, Raise e => out = (None, [], Raise e)
       end
  else out = (None, [], Ok ()).
Proof.
  unfold main. destruct (str_truthy SECRET_KEY).
  2:{ intros [= <-]. simpl. split; [unfold closes; simpl; lia|].
      split; [unfold releases; simpl; lia|]. done. }
  destruct FRAME_RATE as [rate|e].
  2:{ intros [= <-]. simpl. split; [unfold closes; simpl; lia|].
      split; [unfold releases; simpl; lia|]. done. }
  destruct QUALITY as [q|e].
  2:{ intros [= <-]. simpl. split; [unfold closes; simpl; lia|].
      split; [unfold releases; simpl; lia|]. done. }
  destruct (start_streaming (init WS_URL SECRET_KEY rate q) w)
    as [[[c effs] r]|] eqn:Hstart; [|done].
  destruct (start_streaming_outcome (init WS_URL SECRET_KEY rate q) w
              (c, effs, r) eq_refl eq_refl Hstart)
    as ((Hw & Hcam & Hs) & Hcl & Hrl & _).
  pose proof (start_streaming_same_setup (init WS_URL SECRET_KEY rate q) w
                (c, effs, r) Hstart) as (Hurl & Hkey & Hrate & Hq).
  unfold state_of, effects_of in *. simpl in *.
  pose proof (disconnect_state c final) as Hstate.
  pose proof (disconnect_effects c final) as Heffs.
  destruct (disconnect c final) as [[c' effs'] r'].
  unfold state_of, effects_of in *. simpl in *.
  intros [= <-]. simpl. subst c' effs'. rewrite Hw, Hcam. simpl.
  rewrite app_nil_r. split; [destruct (succeeded (opened w)); lia|].
  split; [done|]. eexists. split; [done|]. by simpl.
Qed.

(** X18. The capture object is released exactly when one was made: on a
    client that holds neither transport nor camera, a call of
    [start_streaming] that returns or raises has released the camera once
    if it got as far as [cv2.VideoCapture(0)] and was handed an object,
    also one that did not open, and not at all otherwise. *)
Theorem camera_released_iff_made
    (c : MoverisClient) (w : world)
    (out : MoverisClient * list effect * result bool) :
  websocket c = None → camera c = None →
  start_streaming c w = Some out →
  releases (effects_of out) = (if camera_made c w then 1 else 0).
Proof.
  intros Hw Hcam. unfold start_streaming, camera_made.
  destruct (opened w) as [ws|e] eqn:Hopened; simpl.
  2:{ intros Hout; apply (inj Some) in Hout; subst out.
      destruct (finally_disconnect_outcome c [] false (closed_at w))
        as (_ & He & _).
      by rewrite He, Hw, Hcam. }
  set (c1 := set_connection_start (Some (connected_at w))
               (set_websocket (Some ws) c)).
  destruct (authenticate_cases c1 (auth_tx w) (auth_start w) (auth_script w))
    as [Heffs Hstate].
  destruct (authenticate c1 (auth_tx w) (auth_start w) (auth_script w))
    as [[c2 effs] o].
  unfold effects_of, state_of, value_of in Heffs, Hstate |- *.
  simpl in Heffs, Hstate |- *. subst effs.
  destruct o as [o|]; [|done].
  assert (∀ c3, websocket c3 = Some ws →
            releases (abandon_streaming c3
                        [WsSend (auth_request c1) (succeeded (auth_tx w))]
                        w).1.2
            = (if camera c3 is Some _ then 1 else 0)) as Habandon.
  { intros c3 Hw3.
    destruct (abandon_streaming_outcome c3
                [WsSend (auth_request c1) (succeeded (auth_tx w))] w)
      as (_ & He & _).
    unfold effects_of in He. rewrite He, Hw3. by destruct (camera c3). }
  assert (websocket c2 = Some ws ∧ camera c2 = None) as [Hw2 Hcam2]
    by (subst c2; by destruct o).
  destruct (auth_returns o) eqn:Ho.
  2:{ intros Hout; apply (inj Some) in Hout; subst out.
      rewrite Habandon, Hcam2 by done. by destruct o. }
  destruct o; try done. subst c2.
  destruct (made w) as [cam|e]; simpl.
  2:{ intros Hout; apply (inj Some) in Hout; subst out.
      by rewrite Habandon, Hcam2. }
  destruct (isOpened cam) eqn:Hcamera.
  2:{ intros Hout; apply (inj Some) in Hout; subst out.
      by rewrite Habandon. }
  set (c3 := set_is_streaming true
               (set_camera (Some cam) (set_is_authenticated true c1))).
  destruct (stream_frames_start c3 (stream_start w))
    as [[interval last]|e] eqn:Hstart.
  - set (σ := run (gather c3 interval last) (rounds w)).
    destruct (producer σ) eqn:Hp; [done|].
    destruct (consumer σ) eqn:Hc; [done|].
    intros Hout; apply (inj Some) in Hout; subst out.
    destruct (finally_disconnect_outcome (client σ)
                (WsSend (auth_request c1) (succeeded (auth_tx w)) :: trace σ)
                true (closed_at w)) as (_ & He & _).
    unfold effects_of in He. rewrite He.
    destruct (run_same_setup (gather c3 interval last) (rounds w))
      as (_ & _ & _ & _ & Hws & _ & _ & Hcm).
    fold σ in Hws, Hcm. rewrite Hws, Hcm. simpl.
    destruct (run_trace (gather c3 interval last) (rounds w))
      as (effs & Htr & Hkind & _).
    fold σ in Htr. simpl in Htr. subst effs.
    destruct (frames_and_sleeps_keep_resources (trace σ) Hkind) as [_ Hrl].
    change (WsSend (auth_request c1) (succeeded (auth_tx w))
              :: trace σ ++ [CameraRelease; WsClose])
      with ([WsSend (auth_request c1) (succeeded (auth_tx w))]
              ++ trace σ ++ [CameraRelease; WsClose]).
    by rewrite !releases_app, Hrl.
  - intros Hout; apply (inj Some) in Hout; subst out.
    set (c4 := handle_messages_late c3 (late w)).
    destruct (handle_messages_late_same_setup c3 (late w))
      as (_ & _ & _ & _ & Hws & _ & _ & Hcm).
    fold c4 in Hws, Hcm.
    destruct (finally_disconnect_outcome c4
                [WsSend (auth_request c1) (succeeded (auth_tx w))]
                false (closed_at w)) as (_ & He & _).
    unfold effects_of in He. by rewrite He, Hws, Hcm.
Qed.

(** X16. After [disconnect] nothing more is sent, although
    [is_authenticated] is left as it was: [send_frame] returns [False] and
    [authenticate] returns [False], both without touching the client or the
    transport, and a round of either loop only makes that loop return. *)
Theorem nothing_after_disconnect
    (c : MoverisClient) (now : float)
    (frame_data : string) (t : float) (tx : result unit)
    (start_time : float) (script : list (float * recv_result))
    (σ : session) (ev : event) :
  let c' := state_of (disconnect c now) in
  is_authenticated c' = is_authenticated c ∧
  send_frame c' frame_data t tx = (c', [], false) ∧
  authenticate c' tx start_time script = (c', [], Some AuthNoSocket) ∧
  (client σ = c' →
   client (step σ ev) = c' ∧ trace (step σ ev) = trace σ ∧
   match ev with
   | Produce _ => producer (step σ ev) = Returned
   | Consume _ _ => consumer (step σ ev) = Returned
   end).
Proof.
  simpl. rewrite disconnect_state.
  split; [done|]. split; [by apply send_frame_refuses; left|].
  split; [done|]. intros Hσ.
  destruct ev as [k|r receive_time]; simpl.
  - unfold produce. destruct (producer σ) eqn:Hp; [|done].
    by rewrite Hσ.
  - unfold consume. destruct (consumer σ) eqn:Hc; [|done].
    by rewrite Hσ.
Qed.

End Client.

(** * Worked sessions *)

Example ready_client :
  websocket ready = Some Ws ∧ is_authenticated ready = true ∧
  camera ready = Some {| isOpened := true |} ∧
  connection_start ready = Some 1700000000%float.
Proof. by vm_compute. Qed.

(** Ten frames a second: the interval is the double nearest to 0.1.  A
    frame rate of 0 makes [stream_frames] raise before its loop. *)
Example stream_frames_start_10 :
  stream_frames_start ready 1700000001 = Ok (backoff, 1700000001%float) ∧
  stream_frames_start (init (ws_url created) (secret_key created) 0 70)
    1700000001 = Raise ZeroDivisionError.
Proof. by vm_compute. Qed.

(** The 1001st frame pushes out frame 1 and nothing else. *)
Example saturated_evicts_frame_1 :
  sorted_keys (send_times (client (produce saturated (frame (Ok ())))))
    = seqZ 2 1000.
Proof. by vm_compute. Qed.

(** The acknowledgement of frame 5, sent at 1700000001 and acknowledged a
    quarter of a second later: 250 ms enter at the tail, the oldest sample
    (7) leaves, the backlog depth becomes 3. *)
Example sampled_ack_5 :
  let c := (handle_messages_iter str_mod_literal (client sampled)
              (RecvJson (ack 5 3)) 1700000001.25).1 in
  ack_times c = replicate 49 8%float ++ [250%float] ∧
  send_times c = ∅ ∧ server_buffer c = JInt 3.
Proof. by vm_compute. Qed.

(** A rejected token: [authenticate] returns [False] through the explicit
    error exit and no frame is transmitted afterwards. *)
Example bad_token :
  let out := authenticate connected (Ok ()) 1700000000.5
               [(1700000000.75%float,
                 RecvJson (JDict [("type", JStr "error");
                                  ("message", JStr "bad token")]))] in
  value_of out = Some AuthRejected ∧
  is_authenticated (state_of out) = false ∧
  send_frame (state_of out) "AAAA" 1700000002 (Ok ())
    = (state_of out, [], false).
Proof. by vm_compute. Qed.

(** A payload without a [type] ends [authenticate] at once through the
    catch-all, and so does one that is not JSON. *)
Example untyped_payload :
  value_of (authenticate connected (Ok ()) 1700000000.5
              [(1700000000.75%float, RecvJson (JDict [("hello", JInt 1)]))])
    = Some (AuthException KeyError) ∧
  value_of (authenticate connected (Ok ()) 1700000000.5
              [(1700000000.75%float, RecvUndecodable)])
    = Some (AuthException JSONDecodeError).
Proof. by vm_compute. Qed.

(** The server's [disconnect]: the consumer returns, the producer returns
    at its next round, and the teardown releases each resource once. *)
Example server_shutdown :
  let σ := run str_mod_literal streaming
             [Produce (frame (Ok ()));
              Consume (RecvJson (ack 1 1)) 1700000002.25;
              Consume (RecvJson server_disconnect) 1700000002.5;
              Produce (frame (Ok ()))] in
  consumer σ = Returned ∧ producer σ = Returned ∧
  frame_numbers (trace σ) = [1%Z] ∧
  ack_times (client σ) = [250%float] ∧
  effects_of (disconnect (client σ) 1700000003) = [CameraRelease; WsClose].
Proof. by vm_compute. Qed.

(** ** The theorems at these sessions *)

(** C1 at the saturated session: the insertion of frame 1001 keeps 1000
    entries and evicts exactly one. *)
Lemma send_times_bounded_evicts_smallest_witness :
  size (send_times (client saturated)) ≤ 1000 ∧
  let c := client saturated in
  let c' := state_of (send_frame c "AAAA" 1700000002 (Ok ())) in
  size (send_times c') ≤ 1000 ∧
  size (dom (<[1001%Z := 1700000002%float]> (send_times c))
        ∖ dom (send_times c')) = 1.
Proof.
  assert (size (send_times (client saturated)) ≤ 1000) as Hsize
    by (vm_compute; lia).
  split; [exact Hsize|].
  destruct (send_times_bounded_evicts_smallest str_mod_literal saturated []
              "AAAA" 1700000002 (Ok ()) Hsize) as (_ & Hbound & Hevict).
  split; [exact Hbound|].
  destruct Hevict as (_ & Hcount & _); [by eexists|done|].
  exact Hcount.
Defined.

(** C2, as stated, fails: a transmission that raises makes [send_frame]
    return [False], and [frame_count] has gone from 0 to 1 all the same. *)
Lemma failed_transmission_counts_counterexample :
  let out := send_frame authenticated "AAAA" 1700000002
               (Raise ConnectionClosed) in
  value_of out = false ∧
  frame_count authenticated = 0%Z ∧
  frame_count (state_of out) = 1%Z.
Proof. by vm_compute. Qed.

(** C2 at a run in which one capture fails, one transmission fails and
    one succeeds: the numbers assigned are 1 and 2. *)
Lemma frame_count_counts_attempts_witness :
  is_Some (websocket authenticated) ∧
  is_authenticated authenticated = true ∧
  let σ := run str_mod_literal streaming
             [Produce no_frame; Produce (frame (Raise ConnectionClosed));
              Produce (frame (Ok ()))] in
  frame_numbers (trace σ) = seqZ 1 (frame_count (client σ)) ∧
  frame_count (client σ) = 2%Z.
Proof.
  assert (is_Some (websocket authenticated)) as Hw by by eexists.
  split; [exact Hw|]. split; [done|].
  destruct (frame_count_counts_attempts str_mod_literal authenticated "AAAA"
              1700000002 (Ok ()) streaming
              [Produce no_frame; Produce (frame (Raise ConnectionClosed));
               Produce (frame (Ok ()))] Hw eq_refl) as [_ Hrun].
  destruct Hrun as [Hnum _]; [done|done|].
  split; [exact Hnum|]. by vm_compute.
Defined.

(** C3 at a session closed on the clock reading at which it was opened. *)
Lemma disconnect_zero_duration_faults_witness :
  value_of (disconnect connected 1700000000) = Raise ZeroDivisionError.
Proof.
  apply (disconnect_zero_duration_faults connected 1700000000 1700000000);
    by vm_compute.
Defined.



(** C5 at the session with 50 samples, the oldest of them 7: the
    acknowledgement of frame 5 puts 250 ms at the tail and it is the 7 that
    leaves. *)
Lemma ack_times_bounded_oldest_first_witness :
  length (ack_times (client sampled)) ≤ 50 ∧
  ack_times (client sampled) = 7%float :: replicate 49 8%float ∧
  ack_times (handle_messages_iter str_mod_literal (client sampled)
               (RecvJson (ack 5 3)) 1700000001.25).1
    = replicate 49 8%float ++ [250%float].
Proof.
  assert (length (ack_times (client sampled)) ≤ 50) as Hlen
    by (vm_compute; lia).
  split; [exact Hlen|]. split; [reflexivity|].
  destruct (ack_times_bounded_oldest_first str_mod_literal sampled []
              (RecvJson (ack 5 3)) 1700000001.25 Hlen) as (_ & _ & H).
  vm_compute in H. destruct H as (oldest & rest & Hold & H).
  injection Hold as <- <-. exact H.
Defined.

(** C6, as stated, fails: no [auth_success] and no [error] message
    arrives and the clock passes the window, yet a payload without a [type],
    or a transport that closes, ends [authenticate] a quarter of a second
    after its start through the catch-all, not through the timeout exit. *)
Lemma payload_without_type_counterexample :
  let script r := [(1700000000.75%float, r);
                   (1700000010.5%float, RecvRaise TimeoutError)] in
  value_of (authenticate connected (Ok ()) 1700000000.5
              (script (RecvJson (JDict [("hello", JInt 1)]))))
    = Some (AuthException KeyError) ∧
  value_of (authenticate connected (Ok ()) 1700000000.5
              (script (RecvRaise ConnectionClosed)))
    = Some (AuthException ConnectionClosed) ∧
  value_of (authenticate connected (Ok ()) 1700000000.5
              (script (RecvRaise TimeoutError)))
    = Some AuthTimeout.
Proof. by vm_compute. Qed.

(** C6 at a server that stays silent, then pushes an unrelated message,
    until the clock has passed 1700000010.5; and at the same server when
    the unrelated message is followed by text that is not JSON. *)
Lemma authenticate_times_out_witness :
  value_of (authenticate connected (Ok ()) 1700000000.5
              [(1700000001.5%float, RecvRaise TimeoutError);
               (1700000002.5%float,
                RecvJson (JDict [("type", JStr "processing_started")]));
               (1700000010.5%float, RecvRaise TimeoutError)])
    = Some AuthTimeout ∧
  value_of (authenticate connected (Ok ()) 1700000000.5
              [(1700000001.5%float, RecvRaise TimeoutError);
               (1700000002.5%float,
                RecvJson (JDict [("type", JStr "processing_started")]));
               (1700000003.5%float, RecvUndecodable);
               (1700000010.5%float, RecvRaise TimeoutError)])
    = Some (AuthException JSONDecodeError).
Proof.
  assert (Forall (λ p : float * recv_result, indefinite p.2)
            [(1700000001.5%float, RecvRaise TimeoutError);
             (1700000002.5%float,
              RecvJson (JDict [("type", JStr "processing_started")]))])
    as Hquiet.
  { apply Forall_cons. split; [by left|].
    apply Forall_cons. split; [|by apply Forall_nil].
    right. by exists (JDict [("type", JStr "processing_started")]),
                     (JStr "processing_started"). }
  split.
  - destruct (authenticate_times_out connected 1700000000.5
                [(1700000001.5%float, RecvRaise TimeoutError);
                 (1700000002.5%float,
                  RecvJson (JDict [("type", JStr "processing_started")]))]
                1700000010.5 (RecvRaise TimeoutError) []
                (ex_intro _ Ws eq_refl) eq_refl) as (_ & _ & Htimeout & _).
    by apply Htimeout.
  - destruct (authenticate_times_out connected 1700000000.5
                [(1700000001.5%float, RecvRaise TimeoutError);
                 (1700000002.5%float,
                  RecvJson (JDict [("type", JStr "processing_started")]));
                 (1700000003.5%float, RecvUndecodable)]
                1700000010.5 (RecvRaise TimeoutError) []
                (ex_intro _ Ws eq_refl) eq_refl) as (_ & _ & _ & Habrupt).
    apply (Habrupt [(1700000001.5%float, RecvRaise TimeoutError);
                    (1700000002.5%float,
                     RecvJson (JDict [("type", JStr "processing_started")]))]
             1700000003.5%float RecvUndecodable JSONDecodeError []).
    + reflexivity.
    + apply Forall_cons. split; [split; [by vm_compute|by left]|].
      apply Forall_cons. split; [|by apply Forall_nil].
      split; [by vm_compute|].
      right. by exists (JDict [("type", JStr "processing_started")]),
                       (JStr "processing_started").
    + by vm_compute.
    + split; [done|]. right. by left.
Defined.

Lemma ready_nonzero_session now :
  (now - 1700000000 =? 0)%float = false → nonzero_session ready now.
Proof. intros Hnow t0 [= <-]. split; [done|by vm_compute]. Qed.

(** C7 at a session closed twice on the clock reading at which it was
    opened, as when [main] runs its [finally] right after the one of
    [start_streaming]. *)
Lemma disconnect_twice_faults_witness :
  let first := disconnect connected 1700000000 in
  let second := disconnect (state_of first) 1700000000 in
  value_of first = Raise ZeroDivisionError ∧
  value_of second = Raise ZeroDivisionError ∧
  state_of second = state_of first ∧
  effects_of second = [].
Proof.
  apply (disconnect_twice_faults connected 1700000000 1700000000 1700000000);
    by vm_compute.
Defined.

(** X20 on a client that never connected, and on one that holds the camera
    and the transport. *)
Lemma disconnect_idempotent_witness :
  disconnect created 1700000000 = (created, [], Ok ()) ∧
  effects_of (disconnect ready 1700000005) = [CameraRelease; WsClose] ∧
  disconnect (state_of (disconnect ready 1700000005)) 1700000006
    = (state_of (disconnect ready 1700000005), [], Ok ()).
Proof.
  split; [|split].
  - by apply (disconnect_idempotent created 1700000000 1700000000).
  - by vm_compute.
  - destruct (disconnect_idempotent ready 1700000005 1700000006)
      as (Hstate & Heffects & _ & _ & _ & _ & Hvalue).
    specialize (Hvalue (ready_nonzero_session 1700000006 eq_refl)).
    destruct (disconnect (state_of (disconnect ready 1700000005)) 1700000006)
      as [[s2 e2] v2].
    unfold state_of, effects_of, value_of in *. simpl in *. by subst.
Defined.



(** C9 at the acknowledgement of frame 7, which was never sent. *)
Lemma unknown_ack_records_nothing_witness :
  pending (client sampled) (JInt 7) = false ∧
  calculate_ack_latency (client sampled) (JInt 7) 1700000002
    = Ok (client sampled, None) ∧
  ack_times (handle_messages_iter str_mod_literal (client sampled)
               (RecvJson (ack 7 3)) 1700000002).1
    = ack_times (client sampled).
Proof.
  split; [by vm_compute|].
  destruct (unknown_ack_records_nothing str_mod_literal (client sampled)
              (ack 7 3) (JInt 7) 1700000002 eq_refl eq_refl)
    as (Hcalc & Hacks & _); [by vm_compute|].
  split; [exact Hcalc|exact Hacks].
Defined.

(** C10 on a client that never connected, and on a connected client that
    has not authenticated. *)
Lemma send_frame_not_ready_unchanged_witness :
  send_frame created "AAAA" 1700000002 (Ok ()) = (created, [], false) ∧
  state_of (send_frame connected "AAAA" 1700000002 (Ok ())) = connected.
Proof.
  split.
  - destruct (send_frame_not_ready_unchanged created "AAAA" 1700000002 (Ok ()))
      as (Hv & Hs & He); [by left|].
    destruct (send_frame created "AAAA" 1700000002 (Ok ())) as [[c effs] b].
    unfold value_of, state_of, effects_of in *. simpl in *. by subst.
  - by apply (send_frame_not_ready_unchanged connected "AAAA" 1700000002 (Ok ()));
      right.
Defined.

(** ** The further properties at these sessions *)

Lemma sampled_keys_in_range : keys_in_range (client sampled).
Proof.
  split; [done|]. intros k Hk.
  change (k ∈ dom ({[5%Z := 1700000001%float]} : gmap Z float)) in Hk.
  rewrite dom_singleton_L in Hk. apply elem_of_singleton in Hk. subst k.
  change (1 ≤ 5 ≤ 5)%Z. lia.
Qed.

(** X3 at the session with frame 5 in flight: after two more frames and
    the acknowledgement of the first of them the keys are still in range. *)
Lemma pending_keys_in_range_witness :
  keys_in_range (client sampled) ∧
  keys_in_range
    (client (run str_mod_literal sampled
               [Produce (frame (Ok ()));
                Consume (RecvJson (ack 6 1)) 1700000002.25;
                Produce (frame (Raise ConnectionClosed))])).
Proof.
  split; [exact sampled_keys_in_range|].
  exact (pending_keys_in_range str_mod_literal sampled _ sampled_keys_in_range).
Defined.

(** X4 at the same session: the next frame is frame 6. *)
Lemma send_frame_records_newest_witness :
  keys_in_range (client sampled) ∧
  let out := send_frame (client sampled) "AAAA" 1700000002 (Ok ()) in
  frame_count (state_of out) = 6%Z ∧
  send_times (state_of out) !! 6%Z = Some 1700000002%float ∧
  effects_of out = [WsSend (frame_message 6 "AAAA" 1700000002) true].
Proof.
  split; [exact sampled_keys_in_range|].
  exact (send_frame_records_newest (client sampled) "AAAA" 1700000002 (Ok ())
           sampled_keys_in_range (ex_intro _ Ws eq_refl) eq_refl).
Defined.

(** X5 at the acknowledgement of frame 5, a quarter of a second after it
    was sent. *)
Lemma ack_of_pending_frame_witness :
  send_times (client sampled) !! 5%Z = Some 1700000001%float ∧
  let out := handle_messages_iter str_mod_literal (client sampled)
               (RecvJson (ack 5 3)) 1700000001.25 in
  out.2 = Continue ∧
  last (ack_times out.1) = Some 250%float ∧
  send_times out.1 = delete 5%Z (send_times (client sampled)) ∧
  server_buffer out.1 = JInt 3.
Proof.
  assert (send_times (client sampled) !! 5%Z = Some 1700000001%float) as Hsent
    by (by vm_compute).
  split; [exact Hsent|].
  destruct (ack_of_pending_frame str_mod_literal (client sampled) (ack 5 3) 5
              1700000001 1700000001.25 eq_refl eq_refl Hsent)
    as (Hflow & Hlast & Hst & Hbuf).
  split; [exact Hflow|]. split; [exact Hlast|]. split; [exact Hst|].
  by vm_compute.
Defined.

(** X6 when that acknowledgement arrives a second time. *)
Lemma duplicate_ack_ignored_witness :
  let c1 := (handle_messages_iter str_mod_literal (client sampled)
               (RecvJson (ack 5 3)) 1700000001.25).1 in
  let c2 := (handle_messages_iter str_mod_literal c1
               (RecvJson (ack 5 3)) 1700000001.5).1 in
  ack_times c2 = ack_times c1 ∧ send_times c2 = send_times c1.
Proof.
  exact (duplicate_ack_ignored str_mod_literal (client sampled) (ack 5 3)
           1700000001.25 1700000001.5 eq_refl).
Defined.

(** X7 at the streaming session: the server's [disconnect], then a round of
    the producer. *)
Lemma producer_returns_after_disconnect_witness :
  let evs := [Consume (RecvJson server_disconnect) 1700000002.5;
              Produce (frame (Ok ()))] in
  producer (run str_mod_literal streaming evs) = Returned ∧
  is_streaming (client (run str_mod_literal streaming evs)) = false ∧
  Exists (λ ev, is_disconnect ev = true) evs.
Proof.
  intros evs.
  assert (producer (run str_mod_literal streaming evs) = Returned) as Hend
    by (by vm_compute).
  split; [exact Hend|].
  exact (producer_returns_after_disconnect str_mod_literal streaming evs
           eq_refl eq_refl Hend).
Defined.

(** X8 at the streaming session: an acknowledgement without a
    [frame_number] ends the consumer; a frame and the server's [disconnect]
    later, the producer is still running. *)
Lemma consumer_fault_strands_producer_witness :
  let r := RecvJson (JDict [("type", JStr "frame_received")]) in
  (handle_messages_iter str_mod_literal (client streaming) r 1700000002).2
    = Fault TypeError ∧
  let σ' := run str_mod_literal streaming
              [Consume r 1700000002; Produce (frame (Ok ()));
               Consume (RecvJson server_disconnect) 1700000003] in
  consumer σ' = Returned ∧ producer σ' = Running ∧
  is_streaming (client σ') = true.
Proof.
  intros r.
  assert ((handle_messages_iter str_mod_literal (client streaming) r
             1700000002).2 = Fault TypeError) as Hfault by (by vm_compute).
  split; [exact Hfault|].
  exact (consumer_fault_strands_producer str_mod_literal streaming r
           1700000002 TypeError
           [Produce (frame (Ok ()));
            Consume (RecvJson server_disconnect) 1700000003]
           eq_refl eq_refl eq_refl (ex_intro _ Ws eq_refl) Hfault).
Defined.

(** X11 at the session the server ends. *)
Lemma start_streaming_cleans_up_witness :
  ∃ out, start_streaming str_mod_literal created calm = Some out ∧
    websocket (state_of out) = None ∧ camera (state_of out) = None ∧
    is_streaming (state_of out) = false ∧
    closes (effects_of out) = 1 ∧ releases (effects_of out) ≤ 1.
Proof.
  eexists. split; [by vm_compute|].
  by apply (start_streaming_cleans_up str_mod_literal created calm).
Defined.

(** X12 at the same session: [start_streaming] returns [True]. *)
Lemma start_streaming_true_after_disconnect_witness :
  ∃ out, start_streaming str_mod_literal created calm = Some out ∧
    value_of out = Ok true ∧
    succeeded (opened calm) = true ∧
    releases (effects_of out) = 1 ∧
    Exists (λ ev, is_disconnect ev = true) (rounds calm).
Proof.
  eexists. split; [by vm_compute|]. split; [by vm_compute|].
  by apply (start_streaming_true_after_disconnect str_mod_literal created calm).
Defined.

(** X13 at the server that rejects the token. *)
Lemma start_streaming_false_sends_no_frame_witness :
  ∃ out, start_streaming str_mod_literal created rejecting = Some out ∧
    value_of out = Ok false ∧
    Forall (λ e, is_frame e = false) (effects_of out).
Proof.
  eexists. split; [by vm_compute|]. split; [by vm_compute|].
  by apply (start_streaming_false_sends_no_frame str_mod_literal created
              rejecting).
Defined.

(** X14 at a client made with a frame rate of 0. *)
Lemma start_streaming_zero_frame_rate_witness :
  ∃ out, start_streaming str_mod_literal (init WS_URL "secret" 0 70) calm
           = Some out ∧
    value_of out ≠ Ok true ∧
    Forall (λ e, is_frame e = false) (effects_of out).
Proof.
  eexists. split; [by vm_compute|].
  by apply (start_streaming_zero_frame_rate str_mod_literal
              (init WS_URL "secret" 0 70) calm).
Defined.

(** X15 at a run of [main] with the default answers to both prompts. *)
Lemma main_releases_once_witness :
  ∃ out, main str_mod_literal "secret" (Ok 10%Z) (Ok 70%Z) calm 1700000004
           = Some out ∧
    closes out.1.2 ≤ 1 ∧ releases out.1.2 ≤ 1 ∧
    ∃ c, out.1.1 = Some c ∧
         ws_url c = WS_URL ∧ secret_key c = "secret" ∧
         frame_rate c = 10%Z ∧ quality c = 70%Z ∧
         websocket c = None ∧ camera c = None ∧ is_streaming c = false.
Proof.
  eexists. split; [by vm_compute|].
  by apply (main_releases_once str_mod_literal "secret" (Ok 10%Z) (Ok 70%Z)
              calm 1700000004).
Defined.

(** X18 at a webcam that does not open: [start_streaming] returns [False]
    and the capture object has been released. *)
Lemma camera_released_iff_made_witness :
  ∃ out, start_streaming str_mod_literal created unopened = Some out ∧
    value_of out = Ok false ∧
    releases (effects_of out) = 1.
Proof.
  eexists. split; [by vm_compute|]. split; [by vm_compute|].
  by apply (camera_released_iff_made str_mod_literal created unopened).
Defined.

(** X19 at the streaming session: after the server's [disconnect] an
    acknowledgement still arrives, then the producer has two rounds. *)
Lemma disconnect_stops_both_loops_witness :
  let σ' := run str_mod_literal streaming
              [Consume (RecvJson server_disconnect) 1700000002.5;
               Consume (RecvJson (ack 1 1)) 1700000002.75;
               Produce (frame (Ok ())); Produce (frame (Ok ()))] in
  consumer σ' = Returned ∧ producer σ' = Returned ∧
  client σ' = set_is_streaming false (client streaming) ∧
  trace σ' = trace streaming.
Proof.
  exact (disconnect_stops_both_loops str_mod_literal streaming
           server_disconnect 1700000002.5
           [Consume (RecvJson (ack 1 1)) 1700000002.75]
           (frame (Ok ())) [Produce (frame (Ok ()))]
           eq_refl eq_refl (ex_intro _ Ws eq_refl) eq_refl).
Defined.
